(** * Layered: architecture-drift detection, embedded in Rocq

    A shallow embedding of the analysis core of the Layered backend:

    - [app/analysis/analyzer.py]   (module [Analyzer])
    - [app/graph/builder.py]       (modules [Nx] and [Builder])
    - [app/analysis/inference.py]  (module [Inference])
    - [app/rules/engine.py]        (module [Rules])
    - [app/drift/detector.py]      (module [Detector])

    Python dictionaries keep insertion order and several loops of the
    program iterate over them, so a dictionary is an association list
    with unique keys, updated in place.  Python integers are [Z]. *)

From Stdlib Require Import List String Ascii ZArith Bool Lia Permutation.
From Stdlib Require Import DecimalString.
Import ListNotations.

Open Scope string_scope.
Open Scope list_scope.
Open Scope Z_scope.

Set Warnings "-register-all".

(** ** Strings, as Python's [str] operations used by the program *)

Module Str.

(** [s.lower()], on the ASCII letters. *)
Definition lower_ascii (c : ascii) : ascii :=
  let n := nat_of_ascii c in
  if (Nat.leb 65 n && Nat.leb n 90)%bool then ascii_of_nat (n + 32) else c.

Fixpoint lower (s : string) : string :=
  match s with
  | EmptyString => EmptyString
  | String c s' => String (lower_ascii c) (lower s')
  end.

(** [s.startswith(p)]. *)
Definition startswith (s p : string) : bool := String.prefix p s.

(** [p in s]. *)
Fixpoint contains (p s : string) : bool :=
  match s with
  | EmptyString => String.prefix p s
  | String _ s' => String.prefix p s || contains p s'
  end.

(** [s.endswith(p)]. *)
Fixpoint endswith (s p : string) : bool :=
  match s with
  | EmptyString => String.eqb p EmptyString
  | String _ s' => String.eqb s p || endswith s' p
  end.

(** [s.split(sep)] for a one-character separator. *)
Fixpoint split_on (sep : ascii) (s : string) : list string :=
  match s with
  | EmptyString => [EmptyString]
  | String c s' =>
      if Ascii.eqb c sep then EmptyString :: split_on sep s'
      else match split_on sep s' with
           | [] => [String c EmptyString]
           | w :: ws => String c w :: ws
           end
  end.

(** [sep.join(parts)]. *)
Fixpoint join (sep : string) (parts : list string) : string :=
  match parts with
  | [] => EmptyString
  | [p] => p
  | p :: ps => (p ++ sep ++ join sep ps)%string
  end.

(** [s.replace(a, b)] for one-character [a] and [b]. *)
Fixpoint replace_char (a b : ascii) (s : string) : string :=
  match s with
  | EmptyString => EmptyString
  | String c s' => String (if Ascii.eqb c a then b else c) (replace_char a b s')
  end.

(** [str(n)] for a length. *)
Definition of_nat (n : nat) : string := NilEmpty.string_of_uint (Nat.to_uint n).

(** [x in xs] for a list or set of strings. *)
Definition mem (x : string) (xs : list string) : bool :=
  existsb (String.eqb x) xs.

Definition dquote : string := String "034"%char EmptyString.

End Str.

(** ** Dictionaries: insertion-ordered association lists *)

Module Dict.
Section Dict.
Context {V : Type}.

Definition t := list (string * V).

Definition empty : t := [].

(** [d.get(k)] *)
Fixpoint get (d : t) (k : string) : option V :=
  match d with
  | [] => None
  | (k', v) :: d' => if String.eqb k' k then Some v else get d' k
  end.

(** [k in d] *)
Definition mem (k : string) (d : t) : bool :=
  match get d k with Some _ => true | None => false end.

(** [d[k] = v]: an existing key keeps its position. *)
Fixpoint set (d : t) (k : string) (v : V) : t :=
  match d with
  | [] => [(k, v)]
  | (k', v') :: d' =>
      if String.eqb k' k then (k', v) :: d' else (k', v') :: set d' k v
  end.

Definition keys (d : t) : list string := map fst d.
Definition values (d : t) : list V := map snd d.
Definition items (d : t) : list (string * V) := d.
End Dict.
Arguments t : clear implicits.
End Dict.

(** ** The part of networkx's [DiGraph] that the program uses

    A [DiGraph] keeps three dictionaries: the node attributes, and for
    every node the dictionary of its successors and of its predecessors,
    each neighbour carrying the edge's attribute dictionary.  There is one
    entry per ordered pair of nodes: adding an edge that exists updates its
    attributes. *)

Module Nx.

(** A node's attribute dictionary: each of the four keys is present or
    not, and the value under [layer] is an optional string. *)
Record NodeAttrs := mkNodeAttrs {
  label : option string;
  file_path : option string;
  layer : option (option string);
  is_test : option bool
}.

Definition no_attrs : NodeAttrs := mkNodeAttrs None None None None.

Record EdgeAttrs := mkEdgeAttrs { import_type : option string }.

Record DiGraph := mkDiGraph {
  _node : Dict.t NodeAttrs;
  _succ : Dict.t (Dict.t EdgeAttrs);
  _pred : Dict.t (Dict.t EdgeAttrs)
}.

(** [nx.DiGraph()] *)
Definition empty : DiGraph := mkDiGraph [] [] [].

(** [n in G] *)
Definition has_node (G : DiGraph) (n : string) : bool := Dict.mem n (_node G).

(** [attr_dict.update(attr)]: the keywords given replace the old values. *)
Definition update_attrs (old new : NodeAttrs) : NodeAttrs :=
  let pick {A} (o n : option A) := match n with Some _ => n | None => o end in
  mkNodeAttrs (pick (label old) (label new)) (pick (file_path old) (file_path new))
              (pick (layer old) (layer new)) (pick (is_test old) (is_test new)).

(** [G.add_node(n, **attr)] *)
Definition add_node (G : DiGraph) (n : string) (attr : NodeAttrs) : DiGraph :=
  match Dict.get (_node G) n with
  | None => mkDiGraph (Dict.set (_node G) n (update_attrs no_attrs attr))
                      (Dict.set (_succ G) n [])
                      (Dict.set (_pred G) n [])
  | Some old => mkDiGraph (Dict.set (_node G) n (update_attrs old attr))
                          (_succ G) (_pred G)
  end.

Definition nbrs (adj : Dict.t (Dict.t EdgeAttrs)) (n : string) : Dict.t EdgeAttrs :=
  match Dict.get adj n with Some d => d | None => [] end.

(** [G.add_edge(u, v, **attr)]: missing endpoints are created first. *)
Definition add_edge (G : DiGraph) (u v : string) (attr : EdgeAttrs) : DiGraph :=
  let G1 := if has_node G u then G else add_node G u no_attrs in
  let G2 := if has_node G1 v then G1 else add_node G1 v no_attrs in
  let datadict :=
    match Dict.get (nbrs (_succ G2) u) v with
    | Some old => mkEdgeAttrs (match import_type attr with
                               | Some t => Some t
                               | None => import_type old
                               end)
    | None => attr
    end in
  mkDiGraph (_node G2)
            (Dict.set (_succ G2) u (Dict.set (nbrs (_succ G2) u) v datadict))
            (Dict.set (_pred G2) v (Dict.set (nbrs (_pred G2) v) u datadict)).

(** [G.nodes()] *)
Definition nodes (G : DiGraph) : list string := Dict.keys (_node G).

(** [G.edges()]: every node in turn, with each of its successors. *)
Definition edges (G : DiGraph) : list (string * string) :=
  flat_map (fun '(u, ns) => map (fun v => (u, v)) (Dict.keys ns)) (_succ G).

(** [G.successors(n)] and [G.predecessors(n)] raise for a node that is
    not in the graph: [None]. *)
Definition successors (G : DiGraph) (n : string) : option (list string) :=
  option_map Dict.keys (Dict.get (_succ G) n).

Definition predecessors (G : DiGraph) (n : string) : option (list string) :=
  option_map Dict.keys (Dict.get (_pred G) n).

Definition number_of_nodes (G : DiGraph) : nat := List.length (_node G).
Definition number_of_edges (G : DiGraph) : nat :=
  list_sum (map (fun '(_, ns) => List.length (ns : Dict.t EdgeAttrs)) (_succ G)).

End Nx.

(** ** [app/analysis/analyzer.py] *)

Module Analyzer.

Record Dependency := mkDependency {
  source : string;
  target : string;
  import_type : string;
  line_number : Z
}.

Record ModuleInfo := mkModuleInfo {
  name : string;
  file_path : string;
  imports : list string;
  layer : option string;
  is_test : bool
}.

Definition IGNORED_DIRS : list string :=
  ["__pycache__"; "node_modules"; "venv"; "env"; ".venv";
   "build"; "dist"; ".git"; ".idea"; ".vscode"; "target";
   "bin"; "obj"; "packages"].

Definition IGNORED_FILES : list string := ["__init__.py"; "setup.py"; "conftest.py"].

Definition SOURCE_EXTENSIONS : list string :=
  [".py"; ".js"; ".jsx"; ".ts"; ".tsx"; ".mjs"; ".cjs";
   ".java"; ".kt"; ".scala"; ".groovy";
   ".c"; ".h"; ".cpp"; ".cc"; ".cxx"; ".hpp"; ".hxx";
   ".cs"; ".vb"; ".fs"; ".go"; ".rs"; ".rb"; ".php"; ".swift";
   ".m"; ".mm"; ".dart"; ".lua"; ".pl"; ".pm"; ".ex"; ".exs"; ".hs";
   ".clj"; ".cljs"; ".r"; ".R"; ".sh"; ".bash"; ".sql";
   ".html"; ".htm"; ".css"; ".scss"; ".sass"; ".less"].

(** The keys of [IMPORT_PATTERNS]; the regular expressions themselves are
    outside the model (see [FileOutcome]). *)
Definition IMPORT_PATTERNS_keys : list string :=
  [".py"; ".js"; ".java"; ".cs"; ".go"; ".rs"; ".rb"; ".php"; ".swift";
   ".kt"; ".scala"; ".dart"; ".ex"; ".hs"; ".cpp"; ".lua"].

(** What opening, reading and parsing one file gives: an exception with
    its message, or the import names found in the text (for a Python file
    the names met by the walk over the syntax tree, before
    [_is_external_import]; for a pattern language the list that
    [_extract_imports_with_patterns] returns). *)
Inductive FileOutcome :=
| Raises (msg : string)
| Imports (found : list string).

(** The directory tree below the repository root, entries in the order
    the operating system lists them. *)
Inductive Entry :=
| File (fname : string) (content : FileOutcome)
| Dir (dname : string) (children : list Entry).

(** A path below the root, as its components, with the file's content. *)
Record SourceFile := mkSourceFile {
  parts : list string;
  outcome : FileOutcome
}.

Record Analyzer := mkAnalyzer {
  repo_path : string;
  include_tests : bool;
  modules : Dict.t ModuleInfo;
  dependencies : list Dependency;
  stdout : list string
}.

(** [RepositoryAnalyzer(repo_path, include_tests)] *)
Definition init (repo_path : string) (include_tests : bool) : Analyzer :=
  mkAnalyzer repo_path include_tests [] [] [].

(** *** Paths *)

Definition path_name (parts : list string) : string := last parts EmptyString.

(** [Path.suffix] *)
Definition suffix (parts : list string) : string :=
  let segs := Str.split_on "." (path_name parts) in
  let ext := last segs EmptyString in
  let stem := Str.join "." (removelast segs) in
  if (Nat.leb 2 (List.length segs) && negb (String.eqb ext EmptyString)
      && negb (String.eqb stem EmptyString))%bool
  then ("." ++ ext)%string else EmptyString.

(** [Path.with_suffix('')] *)
Definition without_suffix (parts : list string) : list string :=
  if String.eqb (suffix parts) EmptyString then parts
  else removelast parts ++
       [Str.join "." (removelast (Str.split_on "." (path_name parts)))].

(** [str(file_path.relative_to(self.repo_path))] *)
Definition relative_str (parts : list string) : string := Str.join "/" parts.

(** [str(file_path)] *)
Definition full_str (self : Analyzer) (parts : list string) : string :=
  (repo_path self ++ "/" ++ relative_str parts)%string.

Definition _is_test_file (self : Analyzer) (parts : list string) : bool :=
  let name := Str.lower (path_name parts) in
  let path_str := Str.lower (full_str self parts) in
  Str.startswith name "test_"
  || Str.endswith name "_test.py"
  || Str.contains "/tests/" path_str
  || Str.contains "\tests\" path_str.

Definition _get_module_name (parts : list string) : string :=
  Str.replace_char "/" "." (relative_str (without_suffix parts)).

(** *** [_find_source_files] *)

Definition keep_file (self : Analyzer) (here : list string) (e : Entry)
  : list SourceFile :=
  match e with
  | Dir _ _ => []
  | File f c =>
      let p := here ++ [f] in
      if negb (Str.mem (suffix p) SOURCE_EXTENSIONS) then []
      else if Str.mem f IGNORED_FILES then []
      else if (negb (include_tests self) && _is_test_file self p)%bool then []
      else [mkSourceFile p c]
  end.

(** [os.walk], top-down: the files of a directory, then each of its
    sub-directories that is not pruned. *)
Fixpoint walk (self : Analyzer) (here : list string) (e : Entry) {struct e}
  : list SourceFile :=
  match e with
  | File _ _ => []
  | Dir d sub =>
      if Str.mem d IGNORED_DIRS then []
      else flat_map (keep_file self (here ++ [d])) sub
           ++ flat_map (walk self (here ++ [d])) sub
  end.

Definition _find_source_files (self : Analyzer) (root : list Entry) : list SourceFile :=
  flat_map (keep_file self []) root ++ flat_map (walk self []) root.

(** *** Statements that mutate the analyzer and may raise

    A statement takes the analyzer's state and gives the new state with
    either a value or the message of the [Exception] raised.  What was
    changed before a [raise] stays changed. *)

Definition M (A : Type) : Type := Analyzer -> (string + A) * Analyzer.

Definition ret {A} (a : A) : M A := fun s => (inr a, s).

Definition bind {A B} (c : M A) (k : A -> M B) : M B :=
  fun s => match c s with
           | (inl e, s') => (inl e, s')
           | (inr a, s') => k a s'
           end.

Definition raise {A} (msg : string) : M A := fun s => (inl msg, s).

(** [try: body / except Exception as e: handler(e)] *)
Definition try_except {A} (body : M A) (handler : string -> M A) : M A :=
  fun s => match body s with
           | (inl e, s') => handler e s'
           | r => r
           end.

Notation "x <- c ;; k" := (bind c (fun x => k))
  (at level 61, c at next level, right associativity).
Notation "c ;;; k" := (bind c (fun _ => k))
  (at level 61, right associativity).

Definition print (line : string) : M unit :=
  fun s => (inr tt, mkAnalyzer (repo_path s) (include_tests s) (modules s)
                               (dependencies s) (stdout s ++ [line])).

Definition get_self : M Analyzer := fun s => (inr s, s).

(** [self.modules[module_name] = module_info] *)
Definition store_module (module_name : string) (info : ModuleInfo) : M unit :=
  fun s => (inr tt, mkAnalyzer (repo_path s) (include_tests s)
                               (Dict.set (modules s) module_name info)
                               (dependencies s) (stdout s)).

(** [self.dependencies.append(dep)] *)
Definition append_dependency (dep : Dependency) : M unit :=
  fun s => (inr tt, mkAnalyzer (repo_path s) (include_tests s) (modules s)
                               (dependencies s ++ [dep]) (stdout s)).

Fixpoint for_each {A} (xs : list A) (body : A -> M unit) : M unit :=
  match xs with
  | [] => ret tt
  | x :: xs' => body x ;;; for_each xs' body
  end.

(** [open(file_path).read()] and the parse that follows. *)
Definition read_and_parse (f : SourceFile) : M (list string) :=
  match outcome f with
  | Raises msg => raise msg
  | Imports found => ret found
  end.

Definition _is_external_import (module_name : string) : bool :=
  let external_prefixes :=
    ["fastapi"; "pydantic"; "sqlalchemy"; "requests"; "flask";
     "django"; "numpy"; "pandas"; "torch"; "tensorflow";
     "os"; "sys"; "json"; "typing"; "datetime"; "pathlib";
     "asyncio"; "logging"; "collections"; "re"; "unittest"] in
  let first_part := hd EmptyString (Str.split_on "." module_name) in
  Str.mem first_part external_prefixes.

Definition _extract_imports (found : list string) : list string :=
  filter (fun imp => negb (_is_external_import imp)) found.

Definition import_edges (module_name : string) (imports : list string) : M unit :=
  for_each imports (fun imported_module =>
    append_dependency (mkDependency module_name imported_module "import" 0)).

Definition _analyze_python_file (f : SourceFile) : M unit :=
  try_except
    (found <- read_and_parse f ;;
     self <- get_self ;;
     let module_name := _get_module_name (parts f) in
     let imports := _extract_imports found in
     let module_info :=
       mkModuleInfo module_name (relative_str (parts f)) imports None
                    (_is_test_file self (parts f)) in
     store_module module_name module_info ;;;
     import_edges module_name imports)
    (fun e =>
       self <- get_self ;;
       print ("Error analyzing " ++ full_str self (parts f) ++ ": " ++ e)%string).

Definition _analyze_with_patterns (f : SourceFile) (extension : string) : M unit :=
  try_except
    (imports <- read_and_parse f ;;
     self <- get_self ;;
     let module_name := _get_module_name (parts f) in
     let module_info :=
       mkModuleInfo module_name (relative_str (parts f)) imports None
                    (_is_test_file self (parts f)) in
     store_module module_name module_info ;;;
     import_edges module_name imports)
    (fun e =>
       self <- get_self ;;
       print ("Warning: Failed to analyze " ++ extension ++ " file "
              ++ full_str self (parts f) ++ ": " ++ e)%string).

Definition _analyze_generic_file (f : SourceFile) : M unit :=
  try_except
    (self <- get_self ;;
     let module_name := _get_module_name (parts f) in
     let module_info :=
       mkModuleInfo module_name (relative_str (parts f)) [] None
                    (_is_test_file self (parts f)) in
     store_module module_name module_info)
    (fun e =>
       self <- get_self ;;
       print ("Warning: Failed to analyze generic file "
              ++ full_str self (parts f) ++ ": " ++ e)%string).

Definition _analyze_file (f : SourceFile) : M unit :=
  try_except
    (let extension := Str.lower (suffix (parts f)) in
     if String.eqb extension ".py" then _analyze_python_file f
     else if Str.mem extension IMPORT_PATTERNS_keys
          then _analyze_with_patterns f extension
          else _analyze_generic_file f)
    (fun e =>
       self <- get_self ;;
       print ("Warning: Failed to analyze " ++ full_str self (parts f)
              ++ ": " ++ e)%string).

(** The files that [_analyze_file] opens: those of the two strategies
    that read the text. *)
Definition is_read (f : SourceFile) : bool :=
  let extension := Str.lower (suffix (parts f)) in
  String.eqb extension ".py" || Str.mem extension IMPORT_PATTERNS_keys.

(** The analyzer with one more line printed. *)
Definition printed (s : Analyzer) (line : string) : Analyzer :=
  mkAnalyzer (repo_path s) (include_tests s) (modules s) (dependencies s)
             (stdout s ++ [line]).

(** [analyze()]: what it returns is the pair of the modules and the
    dependencies. *)
Definition analyze (root : list Entry)
  : M (Dict.t ModuleInfo * list Dependency) :=
  self <- get_self ;;
  print ("Analyzing repository: " ++ repo_path self)%string ;;;
  let source_files := _find_source_files self root in
  print ("Found " ++ Str.of_nat (List.length source_files) ++ " source files")%string ;;;
  for_each source_files _analyze_file ;;;
  self <- get_self ;;
  print ("Extracted " ++ Str.of_nat (List.length (modules self)) ++ " modules and "
         ++ Str.of_nat (List.length (dependencies self)) ++ " dependencies")%string ;;;
  ret (modules self, dependencies self).

End Analyzer.

(** ** [app/models/schemas.py]: the two enumerations the detector uses *)

Module Schemas.

Inductive ViolationSeverity := LOW | MEDIUM | HIGH | CRITICAL.

Inductive ViolationType :=
| LAYER_VIOLATION | FORBIDDEN_DEPENDENCY | CIRCULAR_DEPENDENCY
| LEGACY_ACCESS | BYPASS_GATEWAY.

Definition severity_value (s : ViolationSeverity) : string :=
  match s with
  | LOW => "low" | MEDIUM => "medium" | HIGH => "high" | CRITICAL => "critical"
  end.

Definition type_value (t : ViolationType) : string :=
  match t with
  | LAYER_VIOLATION => "layer_violation"
  | FORBIDDEN_DEPENDENCY => "forbidden_dependency"
  | CIRCULAR_DEPENDENCY => "circular_dependency"
  | LEGACY_ACCESS => "legacy_access"
  | BYPASS_GATEWAY => "bypass_gateway"
  end.

End Schemas.

(** ** [app/graph/builder.py] *)

Module Builder.

Record DependencyGraph := mkDependencyGraph {
  graph : Nx.DiGraph;
  module_metadata : Dict.t Analyzer.ModuleInfo
}.

(** [DependencyGraph()] *)
Definition init : DependencyGraph := mkDependencyGraph Nx.empty [].

(** [module_name.split('.')[-1]] *)
Definition label_of (module_name : string) : string :=
  last (Str.split_on "." module_name) EmptyString.

Definition add_module (G : Nx.DiGraph) (kv : string * Analyzer.ModuleInfo) : Nx.DiGraph :=
  let '(module_name, module_info) := kv in
  Nx.add_node G module_name
    (Nx.mkNodeAttrs (Some (label_of module_name))
                    (Some (Analyzer.file_path module_info))
                    (Some (Analyzer.layer module_info))
                    (Some (Analyzer.is_test module_info))).

Definition add_dependency (G : Nx.DiGraph) (dep : Analyzer.Dependency) : Nx.DiGraph :=
  if (Nx.has_node G (Analyzer.source dep) && Nx.has_node G (Analyzer.target dep))%bool
  then Nx.add_edge G (Analyzer.source dep) (Analyzer.target dep)
                   (Nx.mkEdgeAttrs (Some (Analyzer.import_type dep)))
  else G.

Definition build_from_analysis (self : DependencyGraph)
    (modules : Dict.t Analyzer.ModuleInfo) (dependencies : list Analyzer.Dependency)
  : DependencyGraph :=
  let G1 := fold_left add_module (Dict.items modules) (graph self) in
  let G2 := fold_left add_dependency dependencies G1 in
  mkDependencyGraph G2 modules.

Definition get_nodes (self : DependencyGraph) : list string := Nx.nodes (graph self).

Definition get_edges (self : DependencyGraph) : list (string * string) :=
  Nx.edges (graph self).

Definition set_layer_attr (a : Nx.NodeAttrs) (layer : string) : Nx.NodeAttrs :=
  Nx.mkNodeAttrs (Nx.label a) (Nx.file_path a) (Some (Some layer)) (Nx.is_test a).

Definition set_layer_info (m : Analyzer.ModuleInfo) (layer : string) : Analyzer.ModuleInfo :=
  Analyzer.mkModuleInfo (Analyzer.name m) (Analyzer.file_path m) (Analyzer.imports m)
                        (Some layer) (Analyzer.is_test m).

Definition set_node_layer (self : DependencyGraph) (node_id layer : string)
  : DependencyGraph :=
  let G := graph self in
  match Dict.get (Nx._node G) node_id with
  | None => self
  | Some a =>
      let G' := Nx.mkDiGraph (Dict.set (Nx._node G) node_id (set_layer_attr a layer))
                             (Nx._succ G) (Nx._pred G) in
      match Dict.get (module_metadata self) node_id with
      | None => mkDependencyGraph G' (module_metadata self)
      | Some m => mkDependencyGraph G'
                    (Dict.set (module_metadata self) node_id (set_layer_info m layer))
      end
  end.

(** These two raise for a node that is not in the graph. *)
Definition get_successors (self : DependencyGraph) (node_id : string)
  : option (list string) := Nx.successors (graph self) node_id.

Definition get_predecessors (self : DependencyGraph) (node_id : string)
  : option (list string) := Nx.predecessors (graph self) node_id.

(** What a call into the library gives back. *)
Inductive Outcome (A : Type) :=
| Returned (a : A)
| Raised.
Arguments Returned {A} a.
Arguments Raised {A}.

(** [find_cycles]: the list that [nx.simple_cycles] yields, as it is; the
    enumeration itself belongs to networkx and is an argument here. *)
Definition find_cycles
    (simple_cycles : Nx.DiGraph -> Outcome (list (list string)))
    (self : DependencyGraph) : list (list string) :=
  match simple_cycles (graph self) with
  | Returned cycles => cycles
  | Raised => []
  end.

Definition get_nodes_by_layer (self : DependencyGraph) (layer : string) : list string :=
  map fst (filter (fun '(_, data) =>
                     match Nx.layer data with
                     | Some (Some l) => String.eqb l layer
                     | _ => false
                     end) (Nx._node (graph self))).

(** [get_graph_stats]: the two counts; density, acyclicity and the
    component count are computed by networkx and not modelled. *)
Record Stats := mkStats { total_nodes : nat; total_edges : nat }.

Definition get_graph_stats (self : DependencyGraph) : Stats :=
  mkStats (Nx.number_of_nodes (graph self)) (Nx.number_of_edges (graph self)).

End Builder.

(** ** [app/analysis/inference.py] *)

Module Inference.

Definition LAYER_PATTERNS : list (string * list string) :=
  [("presentation", ["client"; "frontend"; "web"; "mobile"; "ui"; "view"; "presentation"]);
   ("gateway", ["gateway"; "api"; "controller"; "endpoint"; "route"; "handler"]);
   ("service", ["service"; "business"; "domain"; "core"; "logic"; "usecase"]);
   ("data", ["data"; "repository"; "dao"; "model"; "database"; "db"; "persistence"]);
   ("legacy", ["legacy"; "old"; "deprecated"; "v1"])].

Definition DEFAULT_HIERARCHY : Dict.t Z :=
  [("presentation", 0); ("gateway", 1); ("service", 2); ("data", 3); ("legacy", 4)].

Record Engine := mkEngine {
  graph : Builder.DependencyGraph;
  inferred_layers : Dict.t string;
  layer_hierarchy : Dict.t Z
}.

(** [ArchitectureInferenceEngine(graph)] *)
Definition init (g : Builder.DependencyGraph) : Engine := mkEngine g [] [].

(** The two nested loops over [LAYER_PATTERNS]: the first layer one of
    whose patterns occurs in the path or in the name. *)
Fixpoint first_matching_layer (table : list (string * list string))
                              (file_path module_name : string) : option string :=
  match table with
  | [] => None
  | (layer_name, patterns) :: rest =>
      if existsb (fun pattern => Str.contains pattern file_path
                                 || Str.contains pattern module_name) patterns
      then Some layer_name
      else first_matching_layer rest file_path module_name
  end.

(** Python's truth value of an optional string. *)
Definition truthy (o : option string) : bool :=
  match o with
  | Some s => negb (String.eqb s EmptyString)
  | None => false
  end.

Definition assign_layer (metadata : Analyzer.ModuleInfo) : string :=
  let file_path := Str.lower (Analyzer.file_path metadata) in
  let module_name := Str.lower (Analyzer.name metadata) in
  let assigned_layer := first_matching_layer LAYER_PATTERNS file_path module_name in
  if truthy assigned_layer
  then match assigned_layer with Some l => l | None => "service" end
  else "service".

Definition assign_node (self : Engine) (node_id : string) : Engine :=
  match Dict.get (Builder.module_metadata (graph self)) node_id with
  | None => self
  | Some metadata =>
      let assigned_layer := assign_layer metadata in
      mkEngine (Builder.set_node_layer (graph self) node_id assigned_layer)
               (Dict.set (inferred_layers self) node_id assigned_layer)
               (layer_hierarchy self)
  end.

Definition _assign_modules_to_layers (self : Engine) : Engine :=
  fold_left assign_node (Builder.get_nodes (graph self)) self.

(** [set(values)], iterated.  The order in which CPython iterates a set of
    strings follows their hashes, which differ from run to run: [order]
    stands for it.  The elements are listed as [order] has them, and those
    that [order] does not mention after them. *)
Definition py_set (order values : list string) : list string :=
  filter (fun x => Str.mem x values) (nodup string_dec order)
  ++ filter (fun x => negb (Str.mem x order)) (nodup string_dec values).

Definition default_level (layer : string) : Z :=
  match Dict.get DEFAULT_HIERARCHY layer with Some l => l | None => 2 end.

Definition pair_eqb (p q : string * string) : bool :=
  String.eqb (fst p) (fst q) && String.eqb (snd p) (snd q).

(** [dependency_votes[key] += 1] on a [defaultdict(int)] *)
Fixpoint vote (votes : list ((string * string) * Z)) (key : string * string)
  : list ((string * string) * Z) :=
  match votes with
  | [] => [(key, 1)]
  | (k, c) :: rest =>
      if pair_eqb k key then (k, c + 1) :: rest else (k, c) :: vote rest key
  end.

Definition count_edge (layers : Dict.t string)
    (votes : list ((string * string) * Z)) (e : string * string)
  : list ((string * string) * Z) :=
  let source_layer := Dict.get layers (fst e) in
  let target_layer := Dict.get layers (snd e) in
  match source_layer, target_layer with
  | Some sl, Some tl =>
      if (truthy source_layer && truthy target_layer && negb (String.eqb sl tl))%bool
      then vote votes (sl, tl) else votes
  | _, _ => votes
  end.

Definition dependency_votes (self : Engine) : list ((string * string) * Z) :=
  fold_left (count_edge (inferred_layers self)) (Builder.get_edges (graph self)) [].

(** The body of the last loop; [None] is the [KeyError] of
    [self.layer_hierarchy[...]]. *)
Definition adjust (h : option (Dict.t Z)) (item : (string * string) * Z)
  : option (Dict.t Z) :=
  match h with
  | None => None
  | Some h =>
      let '((layer_a, layer_b), count) := item in
      if count >? 2 then
        match Dict.get h layer_a, Dict.get h layer_b with
        | Some la, Some lb =>
            if la >=? lb then Some (Dict.set h layer_b (la + 1)) else Some h
        | _, _ => None
        end
      else Some h
  end.

Definition base_hierarchy (layers_used : list string) : Dict.t Z :=
  fold_left (fun h layer => Dict.set h layer (default_level layer)) layers_used [].

Definition _determine_hierarchy (order : list string) (self : Engine) : option Engine :=
  let layers_used := py_set order (Dict.values (inferred_layers self)) in
  let h0 := base_hierarchy layers_used in
  match fold_left adjust (dependency_votes self) (Some h0) with
  | Some h => Some (mkEngine (graph self) (inferred_layers self) h)
  | None => None
  end.

Definition _infer_allowed_dependencies (self : Engine) : Dict.t (list string) :=
  fold_left
    (fun allowed '(layer, level) =>
       Dict.set allowed layer
         (map fst (filter (fun '(other_layer, other_level) =>
                             (other_level >=? level)
                             && negb (String.eqb other_layer layer))
                          (Dict.items (layer_hierarchy self)))))
    (Dict.items (layer_hierarchy self)) [].

Record ArchitectureConfig := mkConfig {
  layers : list string;
  hierarchy : Dict.t Z;
  module_assignments : Dict.t string;
  allowed_dependencies : Dict.t (list string)
}.

Definition config_of (self : Engine) : ArchitectureConfig :=
  mkConfig (Dict.keys (layer_hierarchy self)) (layer_hierarchy self)
           (inferred_layers self) (_infer_allowed_dependencies self).

(** [infer_architecture()], with the engine as it is left. *)
Definition infer_architecture (order : list string) (self : Engine)
  : option (ArchitectureConfig * Engine) :=
  match _determine_hierarchy order (_assign_modules_to_layers self) with
  | Some self' => Some (config_of self', self')
  | None => None
  end.

Definition get_layer_for_module (self : Engine) (module_id : string) : option string :=
  Dict.get (inferred_layers self) module_id.

End Inference.

(** ** [app/rules/engine.py] *)

Module Rules.

Record ArchitectureRule := mkRule {
  name : string;
  description : string;
  layer_source : option string;
  layer_target : option string;
  allowed : bool
}.

Record RulesEngine := mkRulesEngine {
  layers : list string;
  hierarchy : Dict.t Z;
  allowed_dependencies : Dict.t (list string);
  rules : list ArchitectureRule
}.

Definition boundary_rule (source_layer : string) (allowed_targets : list string)
                         (target_layer : string) : list ArchitectureRule :=
  if String.eqb target_layer source_layer then []
  else if Str.mem target_layer allowed_targets
  then [mkRule (source_layer ++ "_to_" ++ target_layer ++ "_allowed")
               (source_layer ++ " layer may depend on " ++ target_layer ++ " layer")
               (Some source_layer) (Some target_layer) true]
  else [mkRule (source_layer ++ "_to_" ++ target_layer ++ "_forbidden")
               (source_layer ++ " layer must not depend on " ++ target_layer ++ " layer")
               (Some source_layer) (Some target_layer) false].

Definition legacy_isolation : ArchitectureRule :=
  mkRule "legacy_isolation"
         "Legacy systems should be isolated behind anti-corruption layer"
         None (Some "legacy") false.

Definition _generate_rules (layers : list string)
    (allowed_dependencies : Dict.t (list string)) : list ArchitectureRule :=
  flat_map (fun '(source_layer, allowed_targets) =>
              flat_map (boundary_rule source_layer allowed_targets) layers)
           (Dict.items allowed_dependencies)
  ++ (if Str.mem "legacy" layers then [legacy_isolation] else []).

(** [RulesEngine(architecture_config)] *)
Definition init (config : Inference.ArchitectureConfig) : RulesEngine :=
  mkRulesEngine (Inference.layers config) (Inference.hierarchy config)
                (Inference.allowed_dependencies config)
                (_generate_rules (Inference.layers config)
                                 (Inference.allowed_dependencies config)).

Definition opt_eqb (o : option string) (s : string) : bool :=
  match o with Some x => String.eqb x s | None => false end.

(** The test of [get_applicable_rule]. *)
Definition matches (source_layer target_layer : string) (rule : ArchitectureRule) : bool :=
  opt_eqb (layer_source rule) source_layer && opt_eqb (layer_target rule) target_layer.

Definition get_applicable_rule (self : RulesEngine) (source_layer target_layer : string)
  : option ArchitectureRule :=
  find (matches source_layer target_layer) (rules self).

Definition is_allowed (self : RulesEngine) (source_layer target_layer : string) : bool :=
  match get_applicable_rule self source_layer target_layer with
  | Some rule => allowed rule
  | None =>
      Str.mem target_layer
        (match Dict.get (allowed_dependencies self) source_layer with
         | Some ts => ts
         | None => []
         end)
  end.

(** The rule that the first loop of [_generate_rules] writes for a pair. *)
Definition pair_rule (s : string) (ts : list string) (t : string)
  : option ArchitectureRule :=
  hd_error (boundary_rule s ts t).

Definition level_of (self : RulesEngine) (layer : string) : Z :=
  match Dict.get (hierarchy self) layer with Some l => l | None => 999 end.

Definition get_violation_severity (self : RulesEngine)
    (source_layer target_layer : string) : Schemas.ViolationSeverity :=
  let source_level := level_of self source_layer in
  let target_level := level_of self target_layer in
  if source_level - target_level >=? 2 then Schemas.CRITICAL
  else if String.eqb target_layer "legacy" then Schemas.CRITICAL
  else if target_level <? source_level then Schemas.HIGH
  else if Z.abs (source_level - target_level) >? 1 then Schemas.MEDIUM
  else Schemas.LOW.

End Rules.

(** ** [app/drift/detector.py] *)

Module Detector.

(** A violation record.  Its [id] (a fresh UUID) and its [timestamp] (the
    clock) are not part of the model. *)
Record Violation := mkViolation {
  type : Schemas.ViolationType;
  severity : Schemas.ViolationSeverity;
  title : string;
  description : string;
  source_module : string;
  target_module : string;
  dependency_path : list string;
  rule_name : string;
  pattern_broken : string
}.

Record ViolationDetector := mkDetector {
  graph : Builder.DependencyGraph;
  rules : Rules.RulesEngine;
  module_layers : Dict.t string
}.

(** How an f-string prints an optional layer. *)
Definition show (o : option string) : string :=
  match o with Some s => s | None => "None" end.

Definition quoted (s : string) : string := (Str.dquote ++ s ++ Str.dquote)%string.

Definition layer_violation (self : ViolationDetector) (e : string * string)
  : list Violation :=
  let '(source, target) := e in
  match Dict.get (module_layers self) source, Dict.get (module_layers self) target with
  | Some source_layer, Some target_layer =>
      if (String.eqb source_layer EmptyString || String.eqb target_layer EmptyString)%bool
      then []
      else if String.eqb source_layer target_layer then []
      else if negb (Rules.is_allowed (rules self) source_layer target_layer) then
        let severity := Rules.get_violation_severity (rules self) source_layer target_layer in
        let rule := Rules.get_applicable_rule (rules self) source_layer target_layer in
        [mkViolation Schemas.LAYER_VIOLATION severity
           ("Layer violation: " ++ source_layer ++ " → " ++ target_layer)
           ("Module " ++ quoted source ++ " from " ++ source_layer
            ++ " layer depends on " ++ quoted target ++ " from " ++ target_layer ++ " layer")
           source target [source; target]
           (match rule with Some r => Rules.name r | None => "layer_boundary" end)
           (match rule with
            | Some r => Rules.description r
            | None => source_layer ++ " should not depend on " ++ target_layer
            end)]
      else []
  | _, _ => []
  end.

Definition _detect_layer_violations (self : ViolationDetector) : list Violation :=
  flat_map (layer_violation self) (Builder.get_edges (graph self)).

(** [len(set(cycle_layers))] *)
Definition opt_eq_dec (a b : option string) : {a = b} + {a <> b}.
Proof. decide equality; apply string_dec. Defined.

Definition circular_dependency (self : ViolationDetector) (cycle : list string)
  : option Violation :=
  let cycle_layers := map (Dict.get (module_layers self)) cycle in
  let severity :=
    if Nat.ltb 1 (List.length (nodup opt_eq_dec cycle_layers))
    then Schemas.HIGH else Schemas.MEDIUM in
  match cycle with
  | [] => None
  | first :: _ =>
      Some (mkViolation Schemas.CIRCULAR_DEPENDENCY severity
              ("Circular dependency detected (" ++ Str.of_nat (List.length cycle)
               ++ " modules)")
              ("Circular dependency chain: " ++ Str.join " → " cycle ++ " → " ++ first)
              first (last cycle first) (cycle ++ [first])
              "acyclic_dependencies"
              "Architecture should be acyclic (no circular dependencies)")
  end.

(** A loop whose body may raise: the first [None] ends it. *)
Fixpoint collect {A B} (f : A -> option (list B)) (xs : list A) : option (list B) :=
  match xs with
  | [] => Some []
  | x :: xs' =>
      match f x with
      | None => None
      | Some ys => option_map (app ys) (collect f xs')
      end
  end.

Definition _detect_circular_dependencies
    (simple_cycles : Nx.DiGraph -> Builder.Outcome (list (list string)))
    (self : ViolationDetector) : option (list Violation) :=
  collect (fun cycle => option_map (fun v => [v]) (circular_dependency self cycle))
          (Builder.find_cycles simple_cycles (graph self)).

Definition legacy_access (accessor legacy_node : string) (accessor_layer : option string)
  : Violation :=
  mkViolation Schemas.LEGACY_ACCESS Schemas.CRITICAL
    "Direct legacy system access"
    ("Module " ++ quoted accessor ++ " from " ++ show accessor_layer
     ++ " layer directly accesses legacy system " ++ quoted legacy_node)
    accessor legacy_node [accessor; legacy_node]
    "legacy_isolation"
    "Legacy systems must be accessed through anti-corruption layer (gateway/adapter)".

Definition opt_mem (o : option string) (xs : list string) : bool :=
  match o with Some x => Str.mem x xs | None => false end.

Definition legacy_nodes (self : ViolationDetector) : list string :=
  map fst (filter (fun '(_, layer) => String.eqb layer "legacy")
                  (Dict.items (module_layers self))).

Definition _detect_legacy_access_violations (self : ViolationDetector)
  : option (list Violation) :=
  collect
    (fun legacy_node =>
       match Builder.get_predecessors (graph self) legacy_node with
       | None => None
       | Some predecessors =>
           Some (flat_map
                   (fun accessor =>
                      let accessor_layer := Dict.get (module_layers self) accessor in
                      if negb (opt_mem accessor_layer ["gateway"; "adapter"])
                      then [legacy_access accessor legacy_node accessor_layer]
                      else [])
                   predecessors)
       end)
    (legacy_nodes self).

Definition bypass_gateway (pres_node target : string) : Violation :=
  mkViolation Schemas.BYPASS_GATEWAY Schemas.HIGH
    "Gateway bypass detected"
    ("Presentation module " ++ quoted pres_node
     ++ " bypasses gateway and directly accesses " ++ quoted target)
    pres_node target [pres_node; target]
    "gateway_enforcement"
    "All client requests must route through API Gateway for authentication and routing".

Definition presentation_nodes (self : ViolationDetector) : list string :=
  map fst (filter (fun '(_, layer) => String.eqb layer "presentation")
                  (Dict.items (module_layers self))).

Definition _detect_gateway_bypasses (self : ViolationDetector)
  : option (list Violation) :=
  collect
    (fun pres_node =>
       match Builder.get_successors (graph self) pres_node with
       | None => None
       | Some successors =>
           Some (flat_map
                   (fun target =>
                      let target_layer := Dict.get (module_layers self) target in
                      if negb (opt_mem target_layer ["gateway"; "presentation"])
                      then [bypass_gateway pres_node target]
                      else [])
                   successors)
       end)
    (presentation_nodes self).

Definition detect_all_violations
    (simple_cycles : Nx.DiGraph -> Builder.Outcome (list (list string)))
    (self : ViolationDetector) : option (list Violation) :=
  let v1 := _detect_layer_violations self in
  match _detect_circular_dependencies simple_cycles self with
  | None => None
  | Some v2 =>
      match _detect_legacy_access_violations self with
      | None => None
      | Some v3 =>
          match _detect_gateway_bypasses self with
          | None => None
          | Some v4 => Some (v1 ++ v2 ++ v3 ++ v4)
          end
      end
  end.

End Detector.

(** ** What the specification says, in its own words

    These definitions follow the text of the specification, not the
    program; the theorems below compare the two. *)

Module Spec.

(** *** Cycles (specification, section 4.2) *)

Definition has_edge (G : Nx.DiGraph) (u v : string) : bool :=
  existsb (Inference.pair_eqb (u, v)) (Nx.edges G).

(** Every node of the walk has an edge to the next one. *)
Fixpoint linked (G : Nx.DiGraph) (c : list string) : bool :=
  match c with
  | u :: ((v :: _) as rest) => has_edge G u v && linked G rest
  | _ => true
  end.

Fixpoint distinct (c : list string) : bool :=
  match c with
  | [] => true
  | x :: rest => negb (Str.mem x rest) && distinct rest
  end.

(** An elementary cycle: a closed walk that revisits no node except its
    start, written without the repeated start. *)
Definition elementary_cycle (G : Nx.DiGraph) (c : list string) : bool :=
  match c with
  | [] => false
  | first :: _ =>
      distinct c && linked G c && has_edge G (last c first) first
  end.

Definition rotate (n : nat) (c : list string) : list string :=
  skipn n c ++ firstn n c.

Definition rotations (c : list string) : list (list string) :=
  map (fun n => rotate n c) (seq 0 (List.length c)).

Definition cycle_eqb (c d : list string) : bool :=
  if list_eq_dec string_dec c d then true else false.

(** Two lists that are rotations of one another are the same cycle. *)
Definition same_cycle (c d : list string) : bool :=
  existsb (cycle_eqb d) (rotations c).

(** What networkx documents of [simple_cycles]: it returns, and every
    elementary cycle of the graph is in the result once, in some
    rotation. *)
Definition enumerates_cycles (G : Nx.DiGraph)
    (r : Builder.Outcome (list (list string))) : Prop :=
  match r with
  | Builder.Raised => False
  | Builder.Returned cs =>
      (forall c, In c cs -> elementary_cycle G c = true)
      /\ (forall c, elementary_cycle G c = true ->
                    List.length (filter (same_cycle c) cs) = 1%nat)
  end.

(** Rotated so that the smallest module id comes first. *)
Definition canonical (c : list string) : bool :=
  match c with
  | [] => true
  | first :: _ => forallb (String.leb first) c
  end.

(** *** Hierarchy (specification, section 4.3) *)

Definition pair_compare (p q : string * string) : comparison :=
  match String.compare (fst p) (fst q) with
  | Eq => String.compare (snd p) (snd q)
  | c => c
  end.

(** Descending count; ties alphabetically by the pair. *)
Definition before (x y : (string * string) * Z) : bool :=
  if snd y <? snd x then true
  else if snd x <? snd y then false
  else match pair_compare (fst x) (fst y) with Gt => false | _ => true end.

Fixpoint insert_sorted (x : (string * string) * Z) (l : list ((string * string) * Z))
  : list ((string * string) * Z) :=
  match l with
  | [] => [x]
  | y :: l' => if before x y then x :: l else y :: insert_sorted x l'
  end.

Definition by_count_then_pair (votes : list ((string * string) * Z))
  : list ((string * string) * Z) :=
  fold_right insert_sorted [] votes.

(** The hierarchy as the specification describes it: the pairs are taken
    in descending order of their count. *)
Definition hierarchy_by_descending_count (order : list string) (self : Inference.Engine)
  : option (Dict.t Z) :=
  let layers_used := Inference.py_set order (Dict.values (Inference.inferred_layers self)) in
  fold_left Inference.adjust (by_count_then_pair (Inference.dependency_votes self))
            (Some (Inference.base_hierarchy layers_used)).

(** The pairs of differing layers that the edges join, one per edge. *)
Definition layer_pairs (layers : Dict.t string) (es : list (string * string))
  : list (string * string) :=
  flat_map (fun e =>
              match Dict.get layers (fst e), Dict.get layers (snd e) with
              | Some sl, Some tl =>
                  if (negb (String.eqb sl EmptyString) && negb (String.eqb tl EmptyString)
                      && negb (String.eqb sl tl))%bool
                  then [(sl, tl)] else []
              | _, _ => []
              end) es.

(** The distinct pairs, in the order in which each is first met. *)
Fixpoint first_seen (ps : list (string * string)) : list (string * string) :=
  match ps with
  | [] => []
  | p :: rest => p :: filter (fun q => negb (Inference.pair_eqb p q)) (first_seen rest)
  end.

Definition occurrences (p : string * string) (ps : list (string * string)) : Z :=
  Z.of_nat (List.length (filter (Inference.pair_eqb p) ps)).

Definition tally (ps : list (string * string)) : list ((string * string) * Z) :=
  map (fun p => (p, occurrences p ps)) (first_seen ps).

Definition level (h : Dict.t Z) (layer : string) : Z :=
  match Dict.get h layer with Some l => l | None => 0 end.

(** A pair counted more than twice puts the target at least one level
    below the source's level of the moment. *)
Definition raise_target (h : Dict.t Z) (item : (string * string) * Z) : Dict.t Z :=
  let '((a, b), count) := item in
  if count >? 2 then Dict.set h b (Z.max (level h b) (level h a + 1)) else h.

(** *** Layer assignment (specification, section 4.3) *)

(** One of the layer's keyword fragments occurs in the path or in the
    module id. *)
Definition fragment_in (layer file_path module_id : string) : bool :=
  match Dict.get Inference.LAYER_PATTERNS layer with
  | Some fragments =>
      existsb (fun f => Str.contains f file_path || Str.contains f module_id) fragments
  | None => false
  end.

(** What layer assignment reads of a module. *)
Definition identity (m : Analyzer.ModuleInfo) : string * string :=
  (Analyzer.name m, Analyzer.file_path m).

(** *** Legacy isolation (specification, section 4.4) *)

Definition five_layers : list string :=
  ["presentation"; "gateway"; "service"; "data"; "legacy"].

End Spec.

(** ** Invariants of the graph *)

Module Invariants.

(** The three dictionaries of a [DiGraph] have the same keys, and every
    neighbour recorded is a node. *)
Record wf (G : Nx.DiGraph) : Prop := mkWf {
  wf_succ_nodes : forall n, In n (Dict.keys (Nx._succ G)) <-> In n (Nx.nodes G);
  wf_pred_nodes : forall n, In n (Dict.keys (Nx._pred G)) <-> In n (Nx.nodes G);
  wf_targets : forall u ns v,
      Dict.get (Nx._succ G) u = Some ns -> In v (Dict.keys ns) -> In v (Nx.nodes G);
  wf_sources : forall v ps u,
      Dict.get (Nx._pred G) v = Some ps -> In u (Dict.keys ps) -> In u (Nx.nodes G);
  wf_succ_nodup : NoDup (Dict.keys (Nx._succ G));
  wf_adj_nodup : forall u ns, Dict.get (Nx._succ G) u = Some ns -> NoDup (Dict.keys ns)
}.

(** The graphs that the operations of [DependencyGraph] can produce. *)
Inductive reachable : Builder.DependencyGraph -> Prop :=
| reach_init : reachable Builder.init
| reach_build g modules dependencies :
    reachable g -> reachable (Builder.build_from_analysis g modules dependencies)
| reach_set_node_layer g node_id layer :
    reachable g -> reachable (Builder.set_node_layer g node_id layer).

Definition endpoints (dep : Analyzer.Dependency) : string * string :=
  (Analyzer.source dep, Analyzer.target dep).

Definition pair_dec (p q : string * string) : {p = q} + {p <> q}.
Proof. decide equality; apply string_dec. Defined.

(** The dependencies both of whose ends are modules, as pairs. *)
Definition internal_pairs (modules : Dict.t Analyzer.ModuleInfo)
    (dependencies : list Analyzer.Dependency) : list (string * string) :=
  filter (fun '(a, b) => Dict.mem a modules && Dict.mem b modules)
         (map endpoints dependencies).

End Invariants.

(** ** Concrete repositories used below *)

Module Examples.

Definition module_at (name path : string) : Analyzer.ModuleInfo :=
  Analyzer.mkModuleInfo name path [] None false.

Definition import (a b : string) : Analyzer.Dependency :=
  Analyzer.mkDependency a b "import" 0.

Definition graph_of (modules : list (string * string))
                    (dependencies : list (string * string)) : Builder.DependencyGraph :=
  Builder.build_from_analysis Builder.init
    (map (fun '(n, p) => (n, module_at n p)) modules)
    (map (fun '(a, b) => import a b) dependencies).

(** Three modules in a ring. *)
Definition triangle : Builder.DependencyGraph :=
  graph_of [("a", "a.py"); ("b", "b.py"); ("c", "c.py")]
           [("a", "b"); ("b", "c"); ("c", "a")].

(** An enumeration of the cycles of [triangle] that starts at [b]. *)
Definition cycles_from_b (G : Nx.DiGraph) : Builder.Outcome (list (list string)) :=
  Builder.Returned [["b"; "c"; "a"]].

Definition ring : list (string * string) := [("a", "b"); ("b", "c"); ("c", "a")].

(** A service module that imports a legacy module. *)
Definition service_and_legacy : Builder.DependencyGraph :=
  graph_of [("billing_service", "billing_service.py"); ("legacy_ledger", "legacy_ledger.py")]
           [("billing_service", "legacy_ledger")].

(** A gateway module and a data module that import one another. *)
Definition gateway_and_data : Builder.DependencyGraph :=
  graph_of [("gateway", "gateway.py"); ("database", "database.py");
            ("orders_service", "orders_service.py")]
           [("database", "gateway"); ("gateway", "database")].

(** Three data modules use a service module; four service modules use a
    gateway module. *)
Definition upward_flow : Builder.DependencyGraph :=
  graph_of [("data1", "data1.py"); ("data2", "data2.py"); ("data3", "data3.py");
            ("service1", "service1.py"); ("service2", "service2.py");
            ("service3", "service3.py"); ("service4", "service4.py");
            ("gateway1", "gateway1.py")]
           [("data1", "service1"); ("data2", "service1"); ("data3", "service1");
            ("service1", "gateway1"); ("service2", "gateway1");
            ("service3", "gateway1"); ("service4", "gateway1")].

(** The same import, met twice with two kinds. *)
Definition twice_imported : Builder.DependencyGraph :=
  Builder.build_from_analysis Builder.init
    [("a", module_at "a" "a.py"); ("b", module_at "b" "b.py")]
    [Analyzer.mkDependency "a" "b" "import" 0;
     Analyzer.mkDependency "a" "b" "from_import" 0].

(** A repository with one Python file that cannot be parsed. *)
Definition broken_repo : list Analyzer.Entry :=
  [Analyzer.File "broken.py" (Analyzer.Raises "invalid syntax (broken.py, line 1)")].

(** An engine whose hierarchy has [gateway] at 1 and [data] at 3. *)
Definition gateway_1_data_3 : Inference.Engine :=
  Inference.mkEngine Builder.init [] [("gateway", 1); ("data", 3)].

(** A module below [src/gateway] whose id holds the word [service]. *)
Definition service_router : Analyzer.ModuleInfo :=
  module_at "src.gateway.service_router" "src/gateway/router.py".

Definition rules_of (order : list string) (g : Builder.DependencyGraph)
  : option Rules.RulesEngine :=
  option_map (fun r => Rules.init (fst r))
             (Inference.infer_architecture order (Inference.init g)).

End Examples.

(** * Properties *)

(** ** Dictionaries *)

Section DictFacts.
Context {V : Type}.
Implicit Types (d : Dict.t V) (k : string) (v : V).

Lemma get_set_same d k v : Dict.get (Dict.set d k v) k = Some v.
Proof.
  induction d as [|[k' v'] d IH]; simpl.
  - now rewrite String.eqb_refl.
  - destruct (String.eqb k' k) eqn:E; simpl; rewrite E; auto.
Qed.

Lemma get_set_other d k k' v :
  k <> k' -> Dict.get (Dict.set d k v) k' = Dict.get d k'.
Proof.
  intros Hne. induction d as [|[k0 v0] d IH]; simpl.
  - apply String.eqb_neq in Hne. now rewrite Hne.
  - destruct (String.eqb k0 k) eqn:E; simpl.
    + apply String.eqb_eq in E; subst k0.
      apply String.eqb_neq in Hne. now rewrite Hne.
    + now rewrite IH.
Qed.

Lemma get_set d k k' v :
  Dict.get (Dict.set d k v) k' = if String.eqb k k' then Some v else Dict.get d k'.
Proof.
  destruct (String.eqb_spec k k') as [->|Hne].
  - apply get_set_same.
  - now apply get_set_other.
Qed.

Lemma get_some_in_keys d k v : Dict.get d k = Some v -> In k (Dict.keys d).
Proof.
  induction d as [|[k' v'] d IH]; simpl; [discriminate|].
  destruct (String.eqb_spec k' k); auto.
Qed.

Lemma in_keys_get d k : In k (Dict.keys d) -> exists v, Dict.get d k = Some v.
Proof.
  induction d as [|[k' v'] d IH]; simpl; [tauto|].
  intros [->|Hin].
  - rewrite String.eqb_refl. eauto.
  - destruct (String.eqb k' k); eauto.
Qed.

Lemma get_none_not_in_keys d k : Dict.get d k = None <-> ~ In k (Dict.keys d).
Proof.
  split.
  - intros Hn Hin. apply in_keys_get in Hin as [v Hv]. congruence.
  - intros Hn. destruct (Dict.get d k) eqn:E; auto.
    apply get_some_in_keys in E. contradiction.
Qed.

Lemma mem_true_iff d k : Dict.mem k d = true <-> In k (Dict.keys d).
Proof.
  unfold Dict.mem. split.
  - destruct (Dict.get d k) eqn:E; [|discriminate].
    intros _. eapply get_some_in_keys; eauto.
  - intros Hin. apply in_keys_get in Hin as [v ->]. reflexivity.
Qed.

Lemma keys_set d k v :
  Dict.keys (Dict.set d k v) = if Dict.mem k d then Dict.keys d else Dict.keys d ++ [k].
Proof.
  unfold Dict.mem. induction d as [|[k' v'] d IH]; simpl; auto.
  destruct (String.eqb k' k) eqn:E; simpl; auto.
  rewrite IH. destruct (Dict.get d k); auto.
Qed.

Lemma in_keys_set d k k' v :
  In k' (Dict.keys (Dict.set d k v)) <-> k' = k \/ In k' (Dict.keys d).
Proof.
  rewrite keys_set. destruct (Dict.mem k d) eqn:E.
  - apply mem_true_iff in E. intuition (subst; auto).
  - rewrite in_app_iff. simpl. intuition (subst; auto).
Qed.

Lemma NoDup_keys_set d k v : NoDup (Dict.keys d) -> NoDup (Dict.keys (Dict.set d k v)).
Proof.
  intros Hnd. rewrite keys_set. destruct (Dict.mem k d) eqn:E; auto.
  apply NoDup_app; auto.
  - repeat constructor. simpl. tauto.
  - intros x Hx [<-|[]].
    apply mem_true_iff in Hx. congruence.
Qed.

Lemma set_same d k v : Dict.get d k = Some v -> Dict.set d k v = d.
Proof.
  induction d as [|[k' v'] d IH]; simpl; [discriminate|].
  destruct (String.eqb k' k) eqn:E.
  - now intros [= ->].
  - intros H. now rewrite IH.
Qed.

Lemma length_set d k v :
  List.length (Dict.set d k v)
  = if Dict.mem k d then List.length d else S (List.length d).
Proof.
  unfold Dict.mem. induction d as [|[k' v'] d IH]; simpl; auto.
  destruct (String.eqb k' k) eqn:E; simpl; auto.
  rewrite IH. destruct (Dict.get d k); auto.
Qed.

Lemma in_get d k v : NoDup (Dict.keys d) -> In (k, v) d -> Dict.get d k = Some v.
Proof.
  induction d as [|[k' v'] d IH]; simpl; [tauto|].
  intros Hnd [[= -> ->]|Hin].
  - now rewrite String.eqb_refl.
  - inversion Hnd as [|? ? Hnotin Hnd']; subst.
    destruct (String.eqb_spec k' k) as [->|]; auto.
    exfalso. apply Hnotin. change (In (fst (k, v)) (map fst d)). now apply in_map.
Qed.

Lemma get_in d k v : Dict.get d k = Some v -> In (k, v) d.
Proof.
  induction d as [|[k' v'] d IH]; simpl; [discriminate|].
  destruct (String.eqb_spec k' k) as [->|]; [intros [= ->]; auto | auto].
Qed.

End DictFacts.

Lemma mem_true_iff_in x xs : Str.mem x xs = true <-> In x xs.
Proof.
  unfold Str.mem. rewrite existsb_exists. split.
  - intros [y [Hin Heq]]. apply String.eqb_eq in Heq. now subst.
  - intros Hin. exists x. split; auto. apply String.eqb_refl.
Qed.

Lemma mem_false_iff_not_in x xs : Str.mem x xs = false <-> ~ In x xs.
Proof.
  rewrite <- mem_true_iff_in. destruct (Str.mem x xs); intuition congruence.
Qed.

(** ** The rules engine *)

Section RulesFacts.

Lemma find_app {A} (f : A -> bool) (l1 l2 : list A) :
  find f (l1 ++ l2) = match find f l1 with Some x => Some x | None => find f l2 end.
Proof. induction l1 as [|x l1 IH]; simpl; auto. destruct (f x); auto. Qed.

Lemma find_none_intro {A} (f : A -> bool) (l : list A) :
  (forall x, In x l -> f x = false) -> find f l = None.
Proof.
  induction l as [|x l IH]; simpl; auto.
  intros H. rewrite (H x) by auto. apply IH. auto.
Qed.

Lemma boundary_rule_allowed s ts t rule :
  In rule (Rules.boundary_rule s ts t) ->
  Rules.layer_source rule = Some s /\ Rules.layer_target rule = Some t
  /\ Rules.allowed rule = Str.mem t ts /\ t <> s.
Proof.
  unfold Rules.boundary_rule.
  destruct (String.eqb_spec t s); [intros []|].
  destruct (Str.mem t ts); intros [<-|[]]; simpl; auto.
Qed.

Lemma find_boundary_other s ts layers s' t' :
  s <> s' ->
  find (Rules.matches s' t') (flat_map (Rules.boundary_rule s ts) layers) = None.
Proof.
  intros Hne. apply find_none_intro. intros rule Hin.
  apply in_flat_map in Hin as [t [_ Hin]].
  apply boundary_rule_allowed in Hin as (Hs & _).
  unfold Rules.matches. rewrite Hs. simpl.
  apply String.eqb_neq in Hne. now rewrite Hne.
Qed.

Lemma mem_cons x y ys : Str.mem x (y :: ys) = String.eqb x y || Str.mem x ys.
Proof. reflexivity. Qed.

Lemma find_boundary_same s ts layers t' :
  find (Rules.matches s t') (flat_map (Rules.boundary_rule s ts) layers)
  = if Str.mem t' layers then Rules.pair_rule s ts t' else None.
Proof.
  induction layers as [|t layers IH]; [reflexivity|].
  cbn [flat_map]. rewrite find_app, IH, mem_cons.
  destruct (String.eqb_spec t' t) as [->|Hne]; simpl.
  - unfold Rules.pair_rule, Rules.boundary_rule.
    destruct (String.eqb_spec t s) as [->|Hts]; simpl.
    + now destruct (Str.mem s layers).
    + destruct (Str.mem t ts); simpl; unfold Rules.matches; simpl;
        now rewrite !String.eqb_refl.
  - rewrite find_none_intro; auto.
    intros rule Hin.
    apply boundary_rule_allowed in Hin as (_ & Ht & _).
    unfold Rules.matches. rewrite Ht. simpl.
    apply not_eq_sym in Hne. apply String.eqb_neq in Hne. rewrite Hne.
    apply andb_false_r.
Qed.

Lemma pair_rule_allowed s ts t rule :
  Rules.pair_rule s ts t = Some rule -> Rules.allowed rule = Str.mem t ts.
Proof.
  unfold Rules.pair_rule. intros H.
  assert (Hin : In rule (Rules.boundary_rule s ts t)).
  { destruct (Rules.boundary_rule s ts t); simpl in H; [discriminate|].
    injection H as ->. now left. }
  now apply boundary_rule_allowed in Hin.
Qed.

(** Whatever rule the table holds for a pair says what the map of
    allowed dependencies says. *)
Lemma find_generated_rule layers (allowed : Dict.t (list string)) s t rule :
  find (Rules.matches s t)
       (flat_map (fun '(source_layer, allowed_targets) =>
                    flat_map (Rules.boundary_rule source_layer allowed_targets) layers)
                 (Dict.items allowed)) = Some rule ->
  exists ts, Dict.get allowed s = Some ts /\ Rules.allowed rule = Str.mem t ts.
Proof.
  induction allowed as [|[s0 ts0] allowed IH]; simpl; [discriminate|].
  rewrite find_app.
  destruct (String.eqb_spec s0 s) as [->|Hne].
  - rewrite find_boundary_same.
    destruct (Str.mem t layers) eqn:Hl.
    + destruct (Rules.pair_rule s ts0 t) as [r|] eqn:Hr.
      * intros [= <-]. exists ts0. split; auto.
        eapply pair_rule_allowed; eauto.
      * intros H. exfalso.
        apply find_some in H as [Hin Hm].
        apply in_flat_map in Hin as [[s1 ts1] [_ Hin]].
        apply in_flat_map in Hin as [t1 [_ Hin]].
        pose proof (boundary_rule_allowed _ _ _ _ Hin) as (Hs & Ht & _ & Hneq).
        unfold Rules.matches in Hm. rewrite Hs, Ht in Hm. simpl in Hm.
        apply andb_prop in Hm as [E1 E2].
        apply String.eqb_eq in E1, E2. subst s1 t1.
        unfold Rules.pair_rule, Rules.boundary_rule in Hr.
        destruct (String.eqb_spec t s); [contradiction|].
        destruct (Str.mem t ts0); discriminate.
    + intros H. exfalso.
      apply find_some in H as [Hin Hm].
      apply in_flat_map in Hin as [[s1 ts1] [_ Hin]].
      apply in_flat_map in Hin as [t1 [Hin1 Hin]].
      pose proof (boundary_rule_allowed _ _ _ _ Hin) as (Hs & Ht & _).
      unfold Rules.matches in Hm. rewrite Hs, Ht in Hm. simpl in Hm.
      apply andb_prop in Hm as [_ E2]. apply String.eqb_eq in E2. subst t1.
      apply mem_true_iff_in in Hin1. congruence.
  - rewrite find_boundary_other by assumption. apply IH.
Qed.

Lemma legacy_isolation_never_matches s t : Rules.matches s t Rules.legacy_isolation = false.
Proof. reflexivity. Qed.

(** [is_allowed] is membership in the map of allowed dependencies, with
    or without a rule for the pair. *)
Lemma is_allowed_lookup (config : Inference.ArchitectureConfig) s t :
  Rules.is_allowed (Rules.init config) s t
  = Str.mem t (match Dict.get (Inference.allowed_dependencies config) s with
               | Some ts => ts
               | None => []
               end).
Proof.
  unfold Rules.is_allowed, Rules.get_applicable_rule, Rules.init; simpl.
  unfold Rules._generate_rules. rewrite find_app.
  match goal with |- context [find (Rules.matches s t) (flat_map ?f ?l)] =>
    destruct (find (Rules.matches s t) (flat_map f l)) as [rule|] eqn:Hf end.
  - apply find_generated_rule in Hf as [ts [-> ->]]. reflexivity.
  - destruct (Str.mem "legacy" (Inference.layers config)); reflexivity.
Qed.

End RulesFacts.

(** ** The map of allowed dependencies *)

Section AllowedFacts.

Lemma fold_set_get {V W : Type} (F : string -> V -> W) (items : Dict.t V) :
  NoDup (Dict.keys items) ->
  forall (d0 : Dict.t W) k,
    Dict.get (fold_left (fun d '(key, v) => Dict.set d key (F key v)) items d0) k
    = match Dict.get items k with
      | Some v => Some (F k v)
      | None => Dict.get d0 k
      end.
Proof.
  induction items as [|[k1 v1] items IH]; intros Hnd d0 k; simpl; auto.
  inversion Hnd as [|? ? Hnotin Hnd']; subst.
  rewrite IH by assumption.
  destruct (String.eqb_spec k1 k) as [->|Hne].
  - apply get_none_not_in_keys in Hnotin. rewrite Hnotin. apply get_set_same.
  - destruct (Dict.get items k); auto. now apply get_set_other.
Qed.

Lemma mem_keys_filter {V : Type} (P : string * V -> bool) (h : Dict.t V) t v :
  NoDup (Dict.keys h) -> Dict.get h t = Some v ->
  Str.mem t (map fst (filter P h)) = P (t, v).
Proof.
  induction h as [|[k1 v1] h IH]; [discriminate|].
  intros Hnd Hget. inversion Hnd as [|? ? Hnotin Hnd']; subst.
  cbn [Dict.get] in Hget. cbn [filter].
  destruct (String.eqb_spec k1 t) as [->|Hne].
  - injection Hget as ->.
    destruct (P (t, v)) eqn:HP.
    + cbn [map fst]. rewrite mem_cons, String.eqb_refl. reflexivity.
    + apply mem_false_iff_not_in. intros Hin. apply Hnotin.
      apply in_map_iff in Hin as [[k' v'] [Hk Hin]]. simpl in Hk. subst k'.
      apply filter_In in Hin as [Hin _].
      change (In (fst (t, v')) (map fst h)). now apply in_map.
  - destruct (P (k1, v1)); auto.
    cbn [map fst]. rewrite mem_cons.
    apply not_eq_sym in Hne. apply String.eqb_neq in Hne.
    rewrite Hne. simpl. auto.
Qed.

Lemma allowed_dependencies_get (self : Inference.Engine) s ls :
  NoDup (Dict.keys (Inference.layer_hierarchy self)) ->
  Dict.get (Inference.layer_hierarchy self) s = Some ls ->
  Dict.get (Inference._infer_allowed_dependencies self) s
  = Some (map fst (filter (fun '(other_layer, other_level) =>
                             (other_level >=? ls) && negb (String.eqb other_layer s))
                          (Inference.layer_hierarchy self))).
Proof.
  intros Hnd Hget. unfold Inference._infer_allowed_dependencies, Dict.items.
  rewrite (fold_set_get
             (fun layer level =>
                map fst (filter (fun '(other_layer, other_level) =>
                                   (other_level >=? level)
                                   && negb (String.eqb other_layer layer))
                                (Inference.layer_hierarchy self)))) by assumption.
  now rewrite Hget.
Qed.

(** Between two layers of an inferred hierarchy, a dependency is allowed
    exactly when the target is another layer, at the same level or
    deeper. *)
Lemma is_allowed_inferred (self : Inference.Engine) s t ls lt :
  NoDup (Dict.keys (Inference.layer_hierarchy self)) ->
  Dict.get (Inference.layer_hierarchy self) s = Some ls ->
  Dict.get (Inference.layer_hierarchy self) t = Some lt ->
  Rules.is_allowed (Rules.init (Inference.config_of self)) s t
  = (lt >=? ls) && negb (String.eqb t s).
Proof.
  intros Hnd Hs Ht. rewrite is_allowed_lookup. simpl.
  rewrite (allowed_dependencies_get self s ls) by assumption.
  now rewrite (mem_keys_filter _ _ t lt).
Qed.

Lemma level_of_inferred (self : Inference.Engine) s :
  Rules.level_of (Rules.init (Inference.config_of self)) s
  = match Dict.get (Inference.layer_hierarchy self) s with
    | Some l => l
    | None => 999
    end.
Proof. reflexivity. Qed.

End AllowedFacts.

(** ** Claims on the rules engine *)

(** C5.  The severity of a dependency between two layers is decided by four
    tests tried in this order: [critical] when the source's level exceeds
    the target's by two or more, or the target is the layer [legacy]; else
    [high] when the target's level is below the source's; else [medium]
    when the two levels differ by more than one; else [low]. *)
Theorem severity_priority_order (self : Rules.RulesEngine) (source_layer target_layer : string) :
  let source_level := Rules.level_of self source_layer in
  let target_level := Rules.level_of self target_layer in
  let severity := Rules.get_violation_severity self source_layer target_layer in
  let skips := source_level - target_level >= 2 \/ target_layer = "legacy" in
  (skips -> severity = Schemas.CRITICAL)
  /\ (~ skips -> target_level < source_level -> severity = Schemas.HIGH)
  /\ (~ skips -> ~ target_level < source_level ->
      Z.abs (source_level - target_level) > 1 -> severity = Schemas.MEDIUM)
  /\ (~ skips -> ~ target_level < source_level ->
      ~ Z.abs (source_level - target_level) > 1 -> severity = Schemas.LOW).
Proof.
  cbv zeta. unfold Rules.get_violation_severity.
  set (sl := Rules.level_of self source_layer).
  set (tl := Rules.level_of self target_layer).
  destruct (Z.geb_spec (sl - tl) 2) as [Hge|Hlt].
  - repeat split; intros; auto; exfalso; intuition lia.
  - destruct (String.eqb_spec target_layer "legacy") as [Hleg|Hleg].
    + repeat split; intros; auto; exfalso; intuition lia.
    + destruct (Z.ltb_spec tl sl) as [Hrev|Hrev].
      * repeat split; intros; auto; try lia. exfalso; intuition lia.
      * destruct (Z.gtb_spec (Z.abs (sl - tl)) 1) as [Hgap|Hgap].
        -- repeat split; intros; auto; try lia. exfalso; intuition lia.
        -- repeat split; intros; auto; try lia. exfalso; intuition lia.
Qed.

(** C4, as the specification states it, fails on the program: with
    [gateway] at level 1 and [data] at level 3 the edge from [data] to
    [gateway] is disallowed, but its severity is [critical], not [high],
    because the first test (a difference of two or more levels) applies. *)
Lemma data_to_gateway_is_not_high :
  exists r, Examples.rules_of [] Examples.gateway_and_data = Some r
            /\ Dict.get (Rules.hierarchy r) "gateway" = Some 1
            /\ Dict.get (Rules.hierarchy r) "data" = Some 3
            /\ ~ (Rules.is_allowed r "data" "gateway" = false
                  /\ Rules.get_violation_severity r "data" "gateway" = Schemas.HIGH
                  /\ Rules.is_allowed r "gateway" "data" = true).
Proof.
  eexists. split; [vm_compute; reflexivity|].
  split; [reflexivity|]. split; [reflexivity|].
  intros (_ & Hsev & _). vm_compute in Hsev. discriminate.
Qed.

(** C4, amended.  In a hierarchy with [gateway] at level 1 and [data] at
    level 3, the edge from [data] to [gateway] is disallowed and its
    severity is [critical]; the edge from [gateway] to [data] is allowed. *)
Theorem data_to_gateway_is_critical (self : Inference.Engine) :
  NoDup (Dict.keys (Inference.layer_hierarchy self)) ->
  Dict.get (Inference.layer_hierarchy self) "gateway" = Some 1 ->
  Dict.get (Inference.layer_hierarchy self) "data" = Some 3 ->
  let r := Rules.init (Inference.config_of self) in
  Rules.is_allowed r "data" "gateway" = false
  /\ Rules.get_violation_severity r "data" "gateway" = Schemas.CRITICAL
  /\ Rules.is_allowed r "gateway" "data" = true.
Proof.
  intros Hnd Hg Hd r. subst r. repeat split.
  - now rewrite (is_allowed_inferred self "data" "gateway" 3 1).
  - unfold Rules.get_violation_severity. rewrite !level_of_inferred, Hg, Hd.
    reflexivity.
  - now rewrite (is_allowed_inferred self "gateway" "data" 1 3).
Qed.

(** The amended C4 at an engine whose hierarchy is gateway 1, data 3. *)
Lemma data_to_gateway_is_critical_witness :
  Dict.get (Inference.layer_hierarchy Examples.gateway_1_data_3) "gateway" = Some 1
  /\ Dict.get (Inference.layer_hierarchy Examples.gateway_1_data_3) "data" = Some 3
  /\ Rules.is_allowed (Rules.init (Inference.config_of Examples.gateway_1_data_3))
                      "data" "gateway" = false
  /\ Rules.get_violation_severity (Rules.init (Inference.config_of Examples.gateway_1_data_3))
                                  "data" "gateway" = Schemas.CRITICAL
  /\ Rules.is_allowed (Rules.init (Inference.config_of Examples.gateway_1_data_3))
                      "gateway" "data" = true.
Proof.
  split; [reflexivity|]. split; [reflexivity|].
  apply (data_to_gateway_is_critical Examples.gateway_1_data_3).
  - repeat constructor; simpl; intuition discriminate.
  - reflexivity.
  - reflexivity.
Defined.

(** C1.  No rule without a source layer is ever the applicable rule, so
    the [legacy_isolation] rule that [_generate_rules] writes is never
    consulted.  At a repository with a [service] module that imports a
    [legacy] module the rule table holds [legacy_isolation], yet
    [is_allowed] answers that [service] may depend on [legacy]; the
    severity of that pair is [critical]. *)
Theorem service_to_legacy_is_allowed :
  (forall config source_layer target_layer rule,
      Rules.get_applicable_rule (Rules.init config) source_layer target_layer = Some rule ->
      Rules.layer_source rule = Some source_layer /\ rule <> Rules.legacy_isolation)
  /\ exists r, Examples.rules_of [] Examples.service_and_legacy = Some r
               /\ In "legacy" (Rules.layers r)
               /\ In Rules.legacy_isolation (Rules.rules r)
               /\ Rules.get_applicable_rule r "service" "legacy"
                  = Some (Rules.mkRule "service_to_legacy_allowed"
                            "service layer may depend on legacy layer"
                            (Some "service") (Some "legacy") true)
               /\ Rules.is_allowed r "service" "legacy" = true
               /\ Rules.get_violation_severity r "service" "legacy" = Schemas.CRITICAL.
Proof.
  split.
  - intros config s t rule Hrule. unfold Rules.get_applicable_rule in Hrule.
    apply find_some in Hrule as [_ Hm].
    assert (Hsrc : Rules.layer_source rule = Some s).
    { unfold Rules.matches in Hm. apply andb_prop in Hm as [Hs _].
      destruct (Rules.layer_source rule) as [x|]; [|discriminate].
      apply String.eqb_eq in Hs. now subst. }
    split; [exact Hsrc|].
    intros ->. now rewrite legacy_isolation_never_matches in Hm.
  - eexists. split; [vm_compute; reflexivity|].
    repeat split; simpl; auto.
Qed.

(** ** The graph *)

Section GraphFacts.

Import Invariants.

Lemma has_node_iff G n : Nx.has_node G n = true <-> In n (Nx.nodes G).
Proof. apply mem_true_iff. Qed.

Lemma wf_empty : wf Nx.empty.
Proof.
  constructor; simpl; try tauto; try discriminate. constructor.
Qed.

Lemma nodes_add_node G n a k :
  In k (Nx.nodes (Nx.add_node G n a)) <-> k = n \/ In k (Nx.nodes G).
Proof.
  unfold Nx.add_node, Nx.nodes.
  destruct (Dict.get (Nx._node G) n) eqn:E; simpl; apply in_keys_set.
Qed.

Lemma wf_add_node G n a : wf G -> wf (Nx.add_node G n a).
Proof.
  intros [H1 H2 H3 H4 H5 H6].
  assert (Hn : forall k, In k (Nx.nodes (Nx.add_node G n a)) <-> k = n \/ In k (Nx.nodes G))
    by (intros; apply nodes_add_node).
  unfold Nx.add_node in *. destruct (Dict.get (Nx._node G) n) eqn:E.
  - apply get_some_in_keys in E.
    constructor; simpl; intros; rewrite ?Hn; eauto.
    + rewrite H1. intuition (subst; auto).
    + rewrite H2. intuition (subst; auto).
  - constructor; simpl.
    + intros k. rewrite Hn, in_keys_set, H1. tauto.
    + intros k. rewrite Hn, in_keys_set, H2. tauto.
    + intros u ns v. rewrite get_set. rewrite Hn.
      destruct (String.eqb n u); [intros [= <-] []|]. eauto.
    + intros v ps u. rewrite get_set. rewrite Hn.
      destruct (String.eqb n v); [intros [= <-] []|]. eauto.
    + now apply NoDup_keys_set.
    + intros u ns. rewrite get_set.
      destruct (String.eqb n u); [intros [= <-]; constructor|]. eauto.
Qed.

Lemma nbrs_get adj n : Dict.get adj n = Some (Nx.nbrs adj n) \/
                       (Dict.get adj n = None /\ Nx.nbrs adj n = []).
Proof. unfold Nx.nbrs. destruct (Dict.get adj n); auto. Qed.

Lemma nodes_add_edge G u v a :
  In u (Nx.nodes G) -> In v (Nx.nodes G) ->
  Nx._node (Nx.add_edge G u v a) = Nx._node G.
Proof.
  intros Hu Hv. unfold Nx.add_edge.
  apply has_node_iff in Hu, Hv. now rewrite Hu, Hv.
Qed.

Lemma succ_add_edge G u v a :
  In u (Nx.nodes G) -> In v (Nx.nodes G) ->
  exists d, Nx._succ (Nx.add_edge G u v a)
            = Dict.set (Nx._succ G) u (Dict.set (Nx.nbrs (Nx._succ G) u) v d).
Proof.
  intros Hu Hv. unfold Nx.add_edge.
  apply has_node_iff in Hu, Hv. rewrite Hu, Hv. simpl. eauto.
Qed.

Lemma pred_add_edge G u v a :
  In u (Nx.nodes G) -> In v (Nx.nodes G) ->
  exists d, Nx._pred (Nx.add_edge G u v a)
            = Dict.set (Nx._pred G) v (Dict.set (Nx.nbrs (Nx._pred G) v) u d).
Proof.
  intros Hu Hv. unfold Nx.add_edge.
  apply has_node_iff in Hu, Hv. rewrite Hu, Hv. simpl. eauto.
Qed.

Lemma wf_add_edge G u v a :
  wf G -> In u (Nx.nodes G) -> In v (Nx.nodes G) -> wf (Nx.add_edge G u v a).
Proof.
  intros [H1 H2 H3 H4 H5 H6] Hu Hv.
  destruct (succ_add_edge G u v a Hu Hv) as [d Hs].
  destruct (pred_add_edge G u v a Hu Hv) as [d' Hp].
  pose proof (nodes_add_edge G u v a Hu Hv) as Hn.
  constructor; unfold Nx.nodes in *; rewrite ?Hs, ?Hp, ?Hn.
  - intros k. rewrite in_keys_set, H1. intuition (subst; auto).
  - intros k. rewrite in_keys_set, H2. intuition (subst; auto).
  - intros x ns w. rewrite get_set.
    destruct (String.eqb_spec u x) as [->|Hne]; [|eauto].
    intros [= <-]. rewrite in_keys_set. intros [->|Hin]; auto.
    destruct (nbrs_get (Nx._succ G) x) as [Hg|[_ Hg]]; [eauto|].
    rewrite Hg in Hin. destruct Hin.
  - intros x ps w. rewrite get_set.
    destruct (String.eqb_spec v x) as [->|Hne]; [|eauto].
    intros [= <-]. rewrite in_keys_set. intros [->|Hin]; auto.
    destruct (nbrs_get (Nx._pred G) x) as [Hg|[_ Hg]]; [eauto|].
    rewrite Hg in Hin. destruct Hin.
  - now apply NoDup_keys_set.
  - intros x ns. rewrite get_set.
    destruct (String.eqb_spec u x) as [->|Hne]; [|eauto].
    intros [= <-]. apply NoDup_keys_set.
    destruct (nbrs_get (Nx._succ G) x) as [Hg|[_ Hg]]; [eauto|].
    rewrite Hg. constructor.
Qed.

Lemma wf_add_module G kv : wf G -> wf (Builder.add_module G kv).
Proof. destruct kv. apply wf_add_node. Qed.

Lemma wf_add_dependency G dep : wf G -> wf (Builder.add_dependency G dep).
Proof.
  intros Hwf. unfold Builder.add_dependency.
  destruct (Nx.has_node G (Analyzer.source dep)) eqn:E1; auto.
  destruct (Nx.has_node G (Analyzer.target dep)) eqn:E2; auto.
  apply wf_add_edge; auto; now apply has_node_iff.
Qed.

Lemma fold_left_invariant {A B} (P : A -> Prop) (f : A -> B -> A) (l : list B) a :
  (forall a b, P a -> P (f a b)) -> P a -> P (fold_left f l a).
Proof. intros Hf. revert a. induction l; simpl; auto. Qed.

Lemma wf_build g modules dependencies :
  wf (Builder.graph g) ->
  wf (Builder.graph (Builder.build_from_analysis g modules dependencies)).
Proof.
  intros Hwf. simpl.
  apply fold_left_invariant; [intros; now apply wf_add_dependency|].
  apply fold_left_invariant; [intros; now apply wf_add_module|]. assumption.
Qed.

Lemma wf_set_node_layer g node_id layer :
  wf (Builder.graph g) -> wf (Builder.graph (Builder.set_node_layer g node_id layer)).
Proof.
  intros [H1 H2 H3 H4 H5 H6]. unfold Builder.set_node_layer.
  destruct (Dict.get (Nx._node (Builder.graph g)) node_id) eqn:E;
    [|constructor; auto].
  assert (Hn : forall k, In k (Dict.keys (Dict.set (Nx._node (Builder.graph g)) node_id
                                         (Builder.set_layer_attr n layer)))
                         <-> In k (Nx.nodes (Builder.graph g))).
  { intros k. rewrite in_keys_set. apply get_some_in_keys in E.
    unfold Nx.nodes. intuition (subst; auto). }
  destruct (Dict.get (Builder.module_metadata g) node_id);
    constructor; unfold Nx.nodes; simpl; intros; rewrite ?Hn; eauto.
Qed.

Lemma reachable_wf g : reachable g -> wf (Builder.graph g).
Proof.
  induction 1.
  - apply wf_empty.
  - now apply wf_build.
  - now apply wf_set_node_layer.
Qed.

(** An edge is a successor entry. *)
Lemma in_edges_iff G u v :
  NoDup (Dict.keys (Nx._succ G)) ->
  In (u, v) (Nx.edges G)
  <-> exists ns, Dict.get (Nx._succ G) u = Some ns /\ In v (Dict.keys ns).
Proof.
  intros Hnd. unfold Nx.edges. rewrite in_flat_map. split.
  - intros [[u' ns] [Hin Hmap]]. apply in_map_iff in Hmap as [w [[= -> ->] Hw]].
    exists ns. split; auto. now apply in_get.
  - intros [ns [Hget Hin]]. exists (u, ns). split.
    + now apply get_in.
    + apply in_map_iff. eauto.
Qed.

Lemma wf_edges_closed G u v :
  wf G -> In (u, v) (Nx.edges G) -> In u (Nx.nodes G) /\ In v (Nx.nodes G).
Proof.
  intros Hwf Hin. pose proof Hwf as [H1 H2 H3 H4 H5 H6].
  apply in_edges_iff in Hin as [ns [Hget Hv]]; auto. split.
  - apply H1. eapply get_some_in_keys; eauto.
  - eauto.
Qed.

End GraphFacts.

Section EdgeFacts.

Import Invariants.

Lemma number_of_edges_length G : Nx.number_of_edges G = List.length (Nx.edges G).
Proof.
  unfold Nx.number_of_edges, Nx.edges.
  induction (Nx._succ G) as [|[u ns] d IH]; simpl; auto.
  rewrite length_app, length_map, IH. unfold Dict.keys. now rewrite length_map.
Qed.

Lemma NoDup_map_pair (u : string) (l : list string) :
  NoDup l -> NoDup (map (fun v => (u, v)) l).
Proof.
  induction 1 as [|x l Hnotin Hnd IH]; simpl; constructor; auto.
  intros Hin. apply in_map_iff in Hin as [w [[= ->] Hw]]. contradiction.
Qed.

Lemma NoDup_flat_edges (d : Dict.t (Dict.t Nx.EdgeAttrs)) :
  NoDup (Dict.keys d) ->
  (forall u ns, In (u, ns) d -> NoDup (Dict.keys ns)) ->
  NoDup (flat_map (fun '(u, ns) => map (fun v => (u, v)) (Dict.keys ns)) d).
Proof.
  induction d as [|[u ns] d IH]; simpl; intros Hnd Hadj; [constructor|].
  inversion Hnd as [|? ? Hnotin Hnd']; subst.
  apply NoDup_app.
  - apply NoDup_map_pair, (Hadj u ns); auto.
  - apply IH; auto. intros; eapply Hadj; eauto.
  - intros [a b] Hin1 Hin2.
    apply in_map_iff in Hin1 as [w [[= -> ->] _]].
    apply in_flat_map in Hin2 as [[u' ns'] [Hin Hmap]].
    apply in_map_iff in Hmap as [w' [[= -> ->] _]].
    apply Hnotin. change (In (fst (a, ns')) (map fst d)). now apply in_map.
Qed.

Lemma NoDup_edges G : wf G -> NoDup (Nx.edges G).
Proof.
  intros [H1 H2 H3 H4 H5 H6]. apply NoDup_flat_edges; auto.
  intros u ns Hin. apply (H6 u). now apply in_get.
Qed.

Lemma edges_add_node G n a e :
  wf G -> In e (Nx.edges (Nx.add_node G n a)) <-> In e (Nx.edges G).
Proof.
  intros Hwf. destruct e as [x y].
  pose proof (wf_add_node G n a Hwf) as Hwf'.
  rewrite !in_edges_iff by (apply wf_succ_nodup; assumption).
  unfold Nx.add_node. destruct (Dict.get (Nx._node G) n) eqn:E; simpl; [tauto|].
  assert (Hnone : Dict.get (Nx._succ G) n = None).
  { apply get_none_not_in_keys. rewrite (wf_succ_nodes G Hwf).
    now apply get_none_not_in_keys. }
  split; intros [ns [Hget Hin]].
  - rewrite get_set in Hget. destruct (String.eqb_spec n x) as [->|Hne].
    + injection Hget as <-. destruct Hin.
    + eauto.
  - exists ns. split; auto. rewrite get_set.
    destruct (String.eqb_spec n x) as [->|Hne]; auto. congruence.
Qed.

Lemma edges_add_dependency G dep a b :
  wf G ->
  In (a, b) (Nx.edges (Builder.add_dependency G dep))
  <-> In (a, b) (Nx.edges G)
      \/ (endpoints dep = (a, b) /\ In a (Nx.nodes G) /\ In b (Nx.nodes G)).
Proof.
  intros Hwf. pose proof (wf_add_dependency G dep Hwf) as Hwf'.
  unfold Builder.add_dependency in *. unfold endpoints.
  destruct (Nx.has_node G (Analyzer.source dep)) eqn:E1; simpl in *.
  2:{ split; auto. intros [H|([= <- <-] & Hu & _)]; auto.
      apply has_node_iff in Hu. congruence. }
  destruct (Nx.has_node G (Analyzer.target dep)) eqn:E2; simpl in *.
  2:{ split; auto. intros [H|([= <- <-] & _ & Hv)]; auto.
      apply has_node_iff in Hv. congruence. }
  apply has_node_iff in E1, E2.
  set (u := Analyzer.source dep) in *. set (v := Analyzer.target dep) in *.
  rewrite !in_edges_iff by (apply wf_succ_nodup; assumption).
  destruct (succ_add_edge G u v (Nx.mkEdgeAttrs (Some (Analyzer.import_type dep))) E1 E2)
    as [d ->].
  split.
  - intros [ns [Hget Hin]]. rewrite get_set in Hget.
    destruct (String.eqb_spec u a) as [->|Hne]; [|eauto].
    injection Hget as <-. apply in_keys_set in Hin as [->|Hin]; auto.
    left. destruct (nbrs_get (Nx._succ G) a) as [Hg|[_ Hg]]; [eauto|].
    rewrite Hg in Hin. destruct Hin.
  - intros [[ns [Hget Hin]]|([= <- <-] & _ & _)].
    + destruct (String.eqb_spec u a) as [->|Hne].
      * eexists. split; [apply get_set_same|]. apply in_keys_set. right.
        unfold Nx.nbrs. now rewrite Hget.
      * exists ns. split; auto. now rewrite get_set_other.
    + eexists. split; [apply get_set_same|]. apply in_keys_set. now left.
Qed.

Lemma node_add_dependency G dep :
  Nx._node (Builder.add_dependency G dep) = Nx._node G.
Proof.
  unfold Builder.add_dependency.
  destruct (Nx.has_node G (Analyzer.source dep)) eqn:E1; auto.
  destruct (Nx.has_node G (Analyzer.target dep)) eqn:E2; auto.
  apply nodes_add_edge; now apply has_node_iff.
Qed.

Lemma node_fold_add_dependency deps G :
  Nx._node (fold_left Builder.add_dependency deps G) = Nx._node G.
Proof.
  revert G. induction deps as [|dep deps IH]; intros G; simpl; auto.
  now rewrite IH, node_add_dependency.
Qed.

Lemma edges_fold_add_dependency deps G a b :
  wf G ->
  In (a, b) (Nx.edges (fold_left Builder.add_dependency deps G))
  <-> In (a, b) (Nx.edges G)
      \/ (In (a, b) (map endpoints deps) /\ In a (Nx.nodes G) /\ In b (Nx.nodes G)).
Proof.
  revert G. induction deps as [|dep deps IH]; intros G Hwf; simpl; [tauto|].
  rewrite IH by now apply wf_add_dependency.
  rewrite edges_add_dependency by assumption.
  unfold Nx.nodes. rewrite node_add_dependency. tauto.
Qed.

Lemma nodes_fold_add_module items G k :
  In k (Nx.nodes (fold_left Builder.add_module items G))
  <-> In k (Nx.nodes G) \/ In k (Dict.keys items).
Proof.
  revert G. induction items as [|[n m] items IH]; intros G; simpl; [tauto|].
  rewrite IH. unfold Builder.add_module. rewrite nodes_add_node.
  intuition (subst; auto).
Qed.

Lemma edges_fold_add_module items G e :
  wf G -> In e (Nx.edges (fold_left Builder.add_module items G)) <-> In e (Nx.edges G).
Proof.
  revert G. induction items as [|[n m] items IH]; intros G Hwf; simpl; [tauto|].
  rewrite IH by now apply (wf_add_module G (n, m)).
  unfold Builder.add_module. now apply edges_add_node.
Qed.

Lemma nodes_build g modules dependencies k :
  In k (Builder.get_nodes (Builder.build_from_analysis g modules dependencies))
  <-> In k (Builder.get_nodes g) \/ In k (Dict.keys modules).
Proof.
  unfold Builder.get_nodes, Nx.nodes. simpl.
  rewrite node_fold_add_dependency. apply nodes_fold_add_module.
Qed.

(** The edges after [build_from_analysis]: the old ones, and the
    dependencies whose two ends are nodes. *)
Lemma edges_build g modules dependencies a b :
  wf (Builder.graph g) ->
  let g' := Builder.build_from_analysis g modules dependencies in
  In (a, b) (Builder.get_edges g')
  <-> In (a, b) (Builder.get_edges g)
      \/ (In (a, b) (map endpoints dependencies)
          /\ In a (Builder.get_nodes g') /\ In b (Builder.get_nodes g')).
Proof.
  intros Hwf g'. subst g'. rewrite !nodes_build.
  unfold Builder.get_edges, Builder.get_nodes. simpl.
  rewrite edges_fold_add_dependency
    by (apply fold_left_invariant; [intros; now apply wf_add_module|assumption]).
  rewrite edges_fold_add_module by assumption.
  rewrite !nodes_fold_add_module. tauto.
Qed.

End EdgeFacts.

(** ** Claims on the graph *)

(** C9.  In every graph that the operations of [DependencyGraph] produce,
    both ends of every edge are nodes; and [build_from_analysis] adds, of
    the dependencies it is given, those whose two ends are nodes, leaving
    the others out without an error. *)
Theorem edge_endpoints_are_nodes (g : Builder.DependencyGraph) :
  Invariants.reachable g ->
  (forall u v, In (u, v) (Builder.get_edges g) ->
               In u (Builder.get_nodes g) /\ In v (Builder.get_nodes g))
  /\ (forall modules dependencies u v,
         let g' := Builder.build_from_analysis g modules dependencies in
         In (u, v) (Builder.get_edges g')
         <-> In (u, v) (Builder.get_edges g)
             \/ (In (u, v) (map Invariants.endpoints dependencies)
                 /\ In u (Builder.get_nodes g') /\ In v (Builder.get_nodes g'))).
Proof.
  intros Hr. apply reachable_wf in Hr. split.
  - intros u v. now apply wf_edges_closed.
  - intros. now apply edges_build.
Qed.

(** C9 at the graph built from two modules and two imports. *)
Lemma edge_endpoints_are_nodes_witness :
  Invariants.reachable Examples.twice_imported
  /\ (forall u v, In (u, v) (Builder.get_edges Examples.twice_imported) ->
                  In u (Builder.get_nodes Examples.twice_imported)
                  /\ In v (Builder.get_nodes Examples.twice_imported)).
Proof.
  assert (Hr : Invariants.reachable Examples.twice_imported)
    by (apply Invariants.reach_build, Invariants.reach_init).
  split; [exact Hr|].
  exact (proj1 (edge_endpoints_are_nodes Examples.twice_imported Hr)).
Defined.

(** C8, as the specification states it, fails on the program: two
    dependencies from [a] to [b], both between modules of the graph, leave
    one edge, and the edge count is 1. *)
Lemma parallel_edges_are_merged :
  List.length (Invariants.internal_pairs
                 [("a", Examples.module_at "a" "a.py"); ("b", Examples.module_at "b" "b.py")]
                 [Analyzer.mkDependency "a" "b" "import" 0;
                  Analyzer.mkDependency "a" "b" "from_import" 0]) = 2%nat
  /\ Builder.get_edges Examples.twice_imported = [("a", "b")]
  /\ Builder.total_edges (Builder.get_graph_stats Examples.twice_imported) <> 2%nat.
Proof. repeat split; vm_compute; discriminate. Qed.

(** C8, amended.  The graph holds at most one edge per ordered pair of
    modules: the edges of a graph built from an analysis are the (source,
    target) pairs of the dependencies whose two ends are modules, each
    pair once however many dependencies have it, and the edge count is the
    number of those distinct pairs. *)
Theorem edge_count_is_distinct_pairs
    (modules : Dict.t Analyzer.ModuleInfo) (dependencies : list Analyzer.Dependency) :
  let g := Builder.build_from_analysis Builder.init modules dependencies in
  NoDup (Builder.get_edges g)
  /\ (forall source target,
         In (source, target) (Builder.get_edges g)
         <-> In (source, target) (Invariants.internal_pairs modules dependencies))
  /\ Builder.total_edges (Builder.get_graph_stats g)
     = List.length (nodup Invariants.pair_dec
                          (Invariants.internal_pairs modules dependencies)).
Proof.
  cbv zeta.
  assert (Hnd : NoDup (Builder.get_edges
                         (Builder.build_from_analysis Builder.init modules dependencies)))
    by (apply NoDup_edges, wf_build, wf_empty).
  assert (Hin : forall a b,
             In (a, b) (Builder.get_edges
                          (Builder.build_from_analysis Builder.init modules dependencies))
             <-> In (a, b) (Invariants.internal_pairs modules dependencies)).
  { intros a b.
    rewrite (edges_build Builder.init modules dependencies a b wf_empty).
    rewrite !nodes_build. unfold Invariants.internal_pairs.
    rewrite filter_In, andb_true_iff, !mem_true_iff. simpl. tauto. }
  split; [exact Hnd|]. split; [exact Hin|].
  unfold Builder.get_graph_stats. cbn [Builder.total_edges].
  rewrite number_of_edges_length.
  apply Permutation_length, NoDup_Permutation.
  - exact Hnd.
  - apply NoDup_nodup.
  - intros [a b]. rewrite nodup_In. apply Hin.
Qed.

(** ** Layer assignment *)

Section AssignFacts.

Lemma assign_layer_identity m m' :
  Spec.identity m = Spec.identity m' -> Inference.assign_layer m = Inference.assign_layer m'.
Proof. unfold Spec.identity, Inference.assign_layer. now intros [= -> ->]. Qed.

Lemma first_matching_layer_in table p n l :
  Inference.first_matching_layer table p n = Some l -> In l (Dict.keys table).
Proof.
  induction table as [|[layer pats] table IH]; simpl; [discriminate|].
  destruct (existsb _ pats); [intros [= ->]; auto | auto].
Qed.

Lemma assign_layer_in_five m : In (Inference.assign_layer m) Spec.five_layers.
Proof.
  unfold Inference.assign_layer.
  destruct (Inference.first_matching_layer _ _ _) as [l|] eqn:E; simpl.
  - apply first_matching_layer_in in E.
    destruct (String.eqb l ""); simpl; [tauto|exact E].
  - simpl. tauto.
Qed.

Lemma metadata_set_node_layer g n l k :
  option_map Spec.identity (Dict.get (Builder.module_metadata (Builder.set_node_layer g n l)) k)
  = option_map Spec.identity (Dict.get (Builder.module_metadata g) k).
Proof.
  unfold Builder.set_node_layer.
  destruct (Dict.get (Nx._node (Builder.graph g)) n); auto.
  destruct (Dict.get (Builder.module_metadata g) n) as [m|] eqn:E; auto.
  simpl. rewrite get_set. destruct (String.eqb_spec n k) as [->|]; auto.
  now rewrite E.
Qed.

Lemma adjacency_set_node_layer g n l :
  Nx._succ (Builder.graph (Builder.set_node_layer g n l)) = Nx._succ (Builder.graph g)
  /\ Nx._pred (Builder.graph (Builder.set_node_layer g n l)) = Nx._pred (Builder.graph g)
  /\ forall k, In k (Builder.get_nodes (Builder.set_node_layer g n l))
               <-> In k (Builder.get_nodes g).
Proof.
  unfold Builder.set_node_layer, Builder.get_nodes, Nx.nodes.
  destruct (Dict.get (Nx._node (Builder.graph g)) n) eqn:E; [|tauto].
  apply get_some_in_keys in E.
  destruct (Dict.get (Builder.module_metadata g) n); simpl;
    (repeat split; auto; rewrite in_keys_set; intuition (subst; auto)).
Qed.

(** What the loop of [_assign_modules_to_layers] leaves, node by node. *)
Lemma assign_fold nodes : forall self,
  let self' := fold_left Inference.assign_node nodes self in
  (forall k, option_map Spec.identity
               (Dict.get (Builder.module_metadata (Inference.graph self')) k)
             = option_map Spec.identity
                 (Dict.get (Builder.module_metadata (Inference.graph self)) k))
  /\ (forall k, Dict.get (Inference.inferred_layers self') k
                = match Dict.get (Builder.module_metadata (Inference.graph self)) k with
                  | Some m => if Str.mem k nodes then Some (Inference.assign_layer m)
                              else Dict.get (Inference.inferred_layers self) k
                  | None => Dict.get (Inference.inferred_layers self) k
                  end)
  /\ Nx._succ (Builder.graph (Inference.graph self'))
     = Nx._succ (Builder.graph (Inference.graph self))
  /\ Nx._pred (Builder.graph (Inference.graph self'))
     = Nx._pred (Builder.graph (Inference.graph self))
  /\ (forall k, In k (Builder.get_nodes (Inference.graph self'))
                <-> In k (Builder.get_nodes (Inference.graph self)))
  /\ Inference.layer_hierarchy self' = Inference.layer_hierarchy self.
Proof.
  induction nodes as [|n nodes IH]; intros self; cbn [fold_left].
  - cbv zeta. repeat split; auto. intros k.
    destruct (Dict.get (Builder.module_metadata (Inference.graph self)) k); reflexivity.
  - specialize (IH (Inference.assign_node self n)). cbv zeta in *.
    destruct IH as (I1 & I2 & I3 & I4 & I5 & I6).
    set (self1 := Inference.assign_node self n) in *.
    set (md := Builder.module_metadata (Inference.graph self)) in *.
    assert (Hstep :
      (forall k, option_map Spec.identity
                   (Dict.get (Builder.module_metadata (Inference.graph self1)) k)
                 = option_map Spec.identity (Dict.get md k))
      /\ (forall k, Dict.get (Inference.inferred_layers self1) k
                    = match Dict.get md n with
                      | Some m => if String.eqb n k then Some (Inference.assign_layer m)
                                  else Dict.get (Inference.inferred_layers self) k
                      | None => Dict.get (Inference.inferred_layers self) k
                      end)
      /\ Nx._succ (Builder.graph (Inference.graph self1))
         = Nx._succ (Builder.graph (Inference.graph self))
      /\ Nx._pred (Builder.graph (Inference.graph self1))
         = Nx._pred (Builder.graph (Inference.graph self))
      /\ (forall k, In k (Builder.get_nodes (Inference.graph self1))
                    <-> In k (Builder.get_nodes (Inference.graph self)))
      /\ Inference.layer_hierarchy self1 = Inference.layer_hierarchy self).
    { subst self1 md. unfold Inference.assign_node.
      destruct (Dict.get (Builder.module_metadata (Inference.graph self)) n) as [m|] eqn:E.
      - cbn [Inference.graph Inference.inferred_layers Inference.layer_hierarchy].
        destruct (adjacency_set_node_layer (Inference.graph self) n
                    (Inference.assign_layer m)) as (A1 & A2 & A3).
        repeat split; auto; try apply A3.
        + intros k. apply metadata_set_node_layer.
        + intros k. apply get_set.
      - repeat split; auto. }
    destruct Hstep as (S1 & S2 & S3 & S4 & S5 & S6).
    repeat split.
    + intros k. now rewrite I1, S1.
    + intros k. rewrite I2, mem_cons. specialize (S1 k). rewrite (S2 k).
      destruct (Dict.get (Builder.module_metadata (Inference.graph self1)) k) as [m1|] eqn:E1;
        destruct (Dict.get md k) as [m|] eqn:E; simpl in S1; try discriminate.
      * rewrite (assign_layer_identity m1 m) by congruence.
        rewrite (String.eqb_sym k n).
        destruct (String.eqb n k) eqn:Enk; simpl.
        -- apply String.eqb_eq in Enk. subst n. rewrite E.
           now destruct (Str.mem k nodes).
        -- destruct (Str.mem k nodes); auto. now destruct (Dict.get md n).
      * destruct (Dict.get md n) as [m|] eqn:En; auto.
        destruct (String.eqb_spec n k) as [->|Hne]; auto. congruence.
    + congruence.
    + congruence.
    + intros Hk. apply S5, I5, Hk.
    + intros Hk. apply I5, S5, Hk.
    + congruence.
Qed.

Lemma first_matching_layer_prefix earlier layer fragments later p n :
  (forall l fs, In (l, fs) earlier ->
                existsb (fun f => Str.contains f p || Str.contains f n) fs = false) ->
  existsb (fun f => Str.contains f p || Str.contains f n) fragments = true ->
  Inference.first_matching_layer (earlier ++ (layer, fragments) :: later) p n = Some layer.
Proof.
  induction earlier as [|[l fs] earlier IH]; intros Hno Hyes; simpl.
  - now rewrite Hyes.
  - rewrite (Hno l fs) by (now left). apply IH; auto.
    intros; eapply Hno; right; eauto.
Qed.

Lemma first_matching_layer_none table p n :
  (forall l fs, In (l, fs) table ->
                existsb (fun f => Str.contains f p || Str.contains f n) fs = false) ->
  Inference.first_matching_layer table p n = None.
Proof.
  induction table as [|[l fs] table IH]; intros Hno; simpl; auto.
  rewrite (Hno l fs) by (now left). apply IH. intros; eapply Hno; right; eauto.
Qed.

End AssignFacts.

Section AssignClaim.

Lemma fragment_in_first_match m earlier layer later :
  Spec.five_layers = earlier ++ layer :: later ->
  (forall l, In l earlier ->
             Spec.fragment_in l (Str.lower (Analyzer.file_path m))
                              (Str.lower (Analyzer.name m)) = false) ->
  Spec.fragment_in layer (Str.lower (Analyzer.file_path m))
                   (Str.lower (Analyzer.name m)) = true ->
  Inference.assign_layer m = layer.
Proof.
  intros Hsplit Hno Hyes. unfold Inference.assign_layer.
  set (p := Str.lower (Analyzer.file_path m)) in *.
  set (n := Str.lower (Analyzer.name m)) in *.
  assert (Hfirst : Inference.first_matching_layer Inference.LAYER_PATTERNS p n = Some layer
                   /\ String.eqb layer "" = false).
  { unfold Spec.five_layers in Hsplit.
    destruct earlier as [|e1 [|e2 [|e3 [|e4 [|e5 rest]]]]];
      injection Hsplit as; subst;
      try (destruct rest; discriminate);
      (split; [|reflexivity]).
    - apply (first_matching_layer_prefix [] _ _ _ p n); [intros ? ? []|exact Hyes].
    - apply (first_matching_layer_prefix (firstn 1 Inference.LAYER_PATTERNS) _ _ _ p n);
        [|exact Hyes].
      intros l fs [[= <- <-]|[]]. apply (Hno "presentation"). simpl; auto.
    - apply (first_matching_layer_prefix (firstn 2 Inference.LAYER_PATTERNS) _ _ _ p n);
        [|exact Hyes].
      intros l fs [[= <- <-]|[[= <- <-]|[]]];
        [apply (Hno "presentation")|apply (Hno "gateway")]; simpl; auto.
    - apply (first_matching_layer_prefix (firstn 3 Inference.LAYER_PATTERNS) _ _ _ p n);
        [|exact Hyes].
      intros l fs [[= <- <-]|[[= <- <-]|[[= <- <-]|[]]]];
        [apply (Hno "presentation")|apply (Hno "gateway")|apply (Hno "service")];
        simpl; auto.
    - apply (first_matching_layer_prefix (firstn 4 Inference.LAYER_PATTERNS) _ _ _ p n);
        [|exact Hyes].
      intros l fs [[= <- <-]|[[= <- <-]|[[= <- <-]|[[= <- <-]|[]]]]];
        [apply (Hno "presentation")|apply (Hno "gateway")|apply (Hno "service")
         |apply (Hno "data")]; simpl; auto. }
  destruct Hfirst as [-> Hne]. unfold Inference.truthy. now rewrite Hne.
Qed.

Lemma no_fragment_is_service m :
  (forall l, In l Spec.five_layers ->
             Spec.fragment_in l (Str.lower (Analyzer.file_path m))
                              (Str.lower (Analyzer.name m)) = false) ->
  Inference.assign_layer m = "service".
Proof.
  intros Hno. unfold Inference.assign_layer.
  rewrite first_matching_layer_none; [reflexivity|].
  intros l fs Hin.
  assert (Hl : In l Spec.five_layers).
  { change Spec.five_layers with (Dict.keys Inference.LAYER_PATTERNS).
    change l with (fst (l, fs)). now apply in_map. }
  specialize (Hno l Hl). unfold Spec.fragment_in in Hno.
  rewrite (in_get Inference.LAYER_PATTERNS l fs) in Hno; auto.
  repeat constructor; simpl; intuition discriminate.
Qed.

Lemma node_gets_assigned_layer (self : Inference.Engine) node m :
  In node (Builder.get_nodes (Inference.graph self)) ->
  Dict.get (Builder.module_metadata (Inference.graph self)) node = Some m ->
  Dict.get (Inference.inferred_layers (Inference._assign_modules_to_layers self)) node
  = Some (Inference.assign_layer m).
Proof.
  intros Hin Hm. unfold Inference._assign_modules_to_layers.
  destruct (assign_fold (Builder.get_nodes (Inference.graph self)) self) as (_ & H & _).
  rewrite H, Hm. apply mem_true_iff_in in Hin. now rewrite Hin.
Qed.

End AssignClaim.

(** C6.  Every node that has a module record is assigned the first layer,
    in the order presentation, gateway, service, data, legacy, one of
    whose keyword fragments occurs in the lowercased file path or module
    id; a node in which no fragment of any layer occurs is assigned
    [service]; and a module at [src/gateway/router.py] in whose id no
    fragment of [presentation] occurs is assigned [gateway], whatever else
    (the word [service], say) its id holds; so is, in particular, the
    module that the extractor makes of that path. *)
Theorem layer_is_first_matching_layer :
  (forall (self : Inference.Engine) node m,
      In node (Builder.get_nodes (Inference.graph self)) ->
      Dict.get (Builder.module_metadata (Inference.graph self)) node = Some m ->
      Dict.get (Inference.inferred_layers (Inference._assign_modules_to_layers self)) node
      = Some (Inference.assign_layer m))
  /\ (forall m earlier layer later,
         Spec.five_layers = earlier ++ layer :: later ->
         (forall l, In l earlier ->
                    Spec.fragment_in l (Str.lower (Analyzer.file_path m))
                                     (Str.lower (Analyzer.name m)) = false) ->
         Spec.fragment_in layer (Str.lower (Analyzer.file_path m))
                          (Str.lower (Analyzer.name m)) = true ->
         Inference.assign_layer m = layer)
  /\ (forall m,
         (forall l, In l Spec.five_layers ->
                    Spec.fragment_in l (Str.lower (Analyzer.file_path m))
                                     (Str.lower (Analyzer.name m)) = false) ->
         Inference.assign_layer m = "service")
  /\ (forall m,
         Analyzer.file_path m = "src/gateway/router.py" ->
         Spec.fragment_in "presentation" (Str.lower (Analyzer.file_path m))
                          (Str.lower (Analyzer.name m)) = false ->
         Inference.assign_layer m = "gateway")
  /\ (forall imports layer is_test,
         Inference.assign_layer
           (Analyzer.mkModuleInfo
              (Analyzer._get_module_name ["src"; "gateway"; "router.py"])
              (Analyzer.relative_str ["src"; "gateway"; "router.py"])
              imports layer is_test) = "gateway").
Proof.
  split; [exact node_gets_assigned_layer|].
  split; [exact fragment_in_first_match|].
  split; [exact no_fragment_is_service|].
  split; [|reflexivity].
  intros m Hpath Hno.
  apply (fragment_in_first_match m ["presentation"] "gateway" ["service"; "data"; "legacy"]).
  - reflexivity.
  - intros l [<-|[]]. exact Hno.
  - rewrite Hpath. reflexivity.
Qed.

(** C6 at a module below [src/gateway] whose id holds [service]. *)
Lemma layer_is_first_matching_layer_witness :
  Str.contains "service" (Analyzer.name Examples.service_router) = true
  /\ Analyzer.file_path Examples.service_router = "src/gateway/router.py"
  /\ Inference.assign_layer Examples.service_router = "gateway".
Proof.
  split; [reflexivity|]. split; [reflexivity|].
  apply (proj1 (proj2 (proj2 (proj2 layer_is_first_matching_layer)))
           Examples.service_router); reflexivity.
Defined.

(** ** The legacy-access pass *)

Section LegacyFacts.

Lemma collect_some {A B} (f : A -> option (list B)) (xs : list A) :
  (forall x, In x xs -> exists ys, f x = Some ys) ->
  exists r, Detector.collect f xs = Some r
            /\ forall x ys y, In x xs -> f x = Some ys -> In y ys -> In y r.
Proof.
  induction xs as [|x xs IH]; intros Hall; simpl.
  - exists []. split; auto.
  - destruct (Hall x (or_introl eq_refl)) as [ys Hys]. rewrite Hys.
    destruct IH as [r [Hr Hin]]; [intros; apply Hall; now right|].
    rewrite Hr. simpl. eexists. split; [reflexivity|].
    intros x' ys' y [<-|Hx] Hf Hy; apply in_or_app.
    + left. congruence.
    + right. eauto.
Qed.

Lemma inferred_layer_origin (g : Builder.DependencyGraph) k l :
  Dict.get (Inference.inferred_layers
              (Inference._assign_modules_to_layers (Inference.init g))) k = Some l ->
  In k (Builder.get_nodes g)
  /\ exists m, Dict.get (Builder.module_metadata g) k = Some m
               /\ l = Inference.assign_layer m.
Proof.
  unfold Inference._assign_modules_to_layers.
  destruct (assign_fold (Builder.get_nodes (Inference.graph (Inference.init g)))
                        (Inference.init g)) as (_ & H & _).
  rewrite H. simpl.
  destruct (Dict.get (Builder.module_metadata g) k) as [m|]; [|discriminate].
  destruct (Str.mem k (Builder.get_nodes g)) eqn:E; [|discriminate].
  intros [= <-]. apply mem_true_iff_in in E. eauto.
Qed.

Lemma infer_architecture_inv order g config self' :
  Inference.infer_architecture order (Inference.init g) = Some (config, self') ->
  let assigned := Inference._assign_modules_to_layers (Inference.init g) in
  Inference.module_assignments config = Inference.inferred_layers assigned
  /\ Inference.graph self' = Inference.graph assigned
  /\ Inference.inferred_layers self' = Inference.inferred_layers assigned.
Proof.
  unfold Inference.infer_architecture, Inference._determine_hierarchy.
  destruct (fold_left Inference.adjust _ _); [|discriminate].
  intros [= <- <-]. simpl. auto.
Qed.

End LegacyFacts.

(** C10.  With the module-to-layer mapping that inference produces, every
    assigned layer is one of presentation, gateway, service, data and
    legacy, never [adapter]; the legacy-access pass returns, and for every
    module assigned [legacy] and every predecessor of it whose assigned
    layer is not [gateway] its result holds a [legacy_access] violation of
    severity [critical] from that predecessor to that module. *)
Theorem legacy_access_without_adapter
    (order : list string) (g : Builder.DependencyGraph)
    (config : Inference.ArchitectureConfig) (self' : Inference.Engine) :
  Invariants.reachable g ->
  Inference.infer_architecture order (Inference.init g) = Some (config, self') ->
  let module_layers := Inference.module_assignments config in
  let detector :=
    Detector.mkDetector (Inference.graph self') (Rules.init config) module_layers in
  (forall module_id layer,
      Dict.get module_layers module_id = Some layer ->
      In layer Spec.five_layers /\ layer <> "adapter")
  /\ exists violations,
      Detector._detect_legacy_access_violations detector = Some violations
      /\ forall legacy_node predecessors accessor,
          Dict.get module_layers legacy_node = Some "legacy" ->
          Builder.get_predecessors (Inference.graph self') legacy_node = Some predecessors ->
          In accessor predecessors ->
          Dict.get module_layers accessor <> Some "gateway" ->
          exists v, In v violations
                    /\ Detector.type v = Schemas.LEGACY_ACCESS
                    /\ Detector.severity v = Schemas.CRITICAL
                    /\ Detector.source_module v = accessor
                    /\ Detector.target_module v = legacy_node
                    /\ Detector.dependency_path v = [accessor; legacy_node].
Proof.
  intros Hr Hinf module_layers detector.
  apply infer_architecture_inv in Hinf as (Hml & Hg & _).
  assert (Hfive : forall module_id layer,
             Dict.get module_layers module_id = Some layer ->
             In layer Spec.five_layers /\ layer <> "adapter").
  { intros k l Hk. subst module_layers. rewrite Hml in Hk.
    apply inferred_layer_origin in Hk as (_ & m & _ & ->).
    pose proof (assign_layer_in_five m) as Hin. split; auto.
    intros Heq. rewrite Heq in Hin. simpl in Hin. intuition discriminate. }
  split; [exact Hfive|].
  pose proof (reachable_wf g Hr) as Hwf.
  destruct (assign_fold (Builder.get_nodes (Inference.graph (Inference.init g)))
                        (Inference.init g)) as (_ & _ & _ & Hpred & _).
  fold (Inference._assign_modules_to_layers (Inference.init g)) in Hpred.
  simpl in Hpred.
  unfold Detector._detect_legacy_access_violations.
  destruct (collect_some
    (fun legacy_node =>
       match Builder.get_predecessors (Detector.graph detector) legacy_node with
       | Some predecessors =>
           Some (flat_map
                   (fun accessor =>
                      let accessor_layer := Dict.get (Detector.module_layers detector) accessor in
                      if negb (Detector.opt_mem accessor_layer ["gateway"; "adapter"])
                      then [Detector.legacy_access accessor legacy_node accessor_layer]
                      else []) predecessors)
       | None => None
       end) (Detector.legacy_nodes detector)) as [vs [Hvs Hin]].
  { intros n Hn. unfold Detector.legacy_nodes in Hn.
    apply in_map_iff in Hn as [[n' l] [Hfst Hn]]. simpl in Hfst. subst n'.
    apply filter_In in Hn as [Hn _].
    assert (Hkey : In n (Dict.keys (Detector.module_layers detector))).
    { change n with (fst (n, l)). now apply in_map. }
    apply in_keys_get in Hkey as [l' Hl']. simpl in Hl'.
    subst module_layers. rewrite Hml in Hl'.
    apply inferred_layer_origin in Hl' as (Hnode & _).
    apply (Invariants.wf_pred_nodes _ Hwf) in Hnode.
    apply in_keys_get in Hnode as [ps Hps].
    unfold Builder.get_predecessors, Nx.predecessors. simpl.
    rewrite Hg, Hpred, Hps. simpl. eauto. }
  exists vs. split; [exact Hvs|].
  intros legacy_node predecessors accessor Hleg Hpreds Hacc Hnotgw.
  exists (Detector.legacy_access accessor legacy_node (Dict.get module_layers accessor)).
  split; [|repeat split].
  eapply (Hin legacy_node).
  - unfold Detector.legacy_nodes. apply in_map_iff. exists (legacy_node, "legacy").
    split; auto. apply filter_In. split; [|reflexivity].
    apply get_in. exact Hleg.
  - simpl. rewrite Hpreds. reflexivity.
  - apply in_flat_map. exists accessor. split; auto. simpl.
    destruct (Dict.get module_layers accessor) as [l|] eqn:El; simpl; [|now left].
    destruct (Hfive accessor l El) as [_ Hnotad].
    unfold Str.mem. simpl.
    destruct (String.eqb_spec l "gateway") as [->|]; [congruence|].
    destruct (String.eqb_spec l "adapter") as [->|]; [congruence|].
    simpl. now left.
Qed.

(** C10 at a service module that imports a legacy module. *)
Lemma legacy_access_without_adapter_witness :
  exists config self',
    Inference.infer_architecture [] (Inference.init Examples.service_and_legacy)
    = Some (config, self')
    /\ exists violations,
        Detector._detect_legacy_access_violations
          (Detector.mkDetector (Inference.graph self') (Rules.init config)
                               (Inference.module_assignments config)) = Some violations
        /\ exists v, In v violations
                     /\ Detector.severity v = Schemas.CRITICAL
                     /\ Detector.source_module v = "billing_service"
                     /\ Detector.target_module v = "legacy_ledger".
Proof.
  assert (Hr : Invariants.reachable Examples.service_and_legacy)
    by (apply Invariants.reach_build, Invariants.reach_init).
  destruct (Inference.infer_architecture [] (Inference.init Examples.service_and_legacy))
    as [[config self']|] eqn:Hinf; [|vm_compute in Hinf; discriminate].
  exists config, self'. split; [reflexivity|].
  destruct (legacy_access_without_adapter [] Examples.service_and_legacy config self' Hr Hinf)
    as (_ & violations & Hv & Hall).
  exists violations. split; [exact Hv|].
  assert (Hc : Some (config, self')
               = Inference.infer_architecture [] (Inference.init Examples.service_and_legacy))
    by (symmetry; exact Hinf).
  vm_compute in Hc. injection Hc as -> ->.
  destruct (Hall "legacy_ledger" ["billing_service"] "billing_service")
    as (v & Hin & _ & Hsev & Hsrc & Htgt & _);
    [reflexivity|reflexivity|now left|discriminate|].
  exists v. auto.
Defined.

(** ** The tally of layer pairs *)

Section TallyFacts.

Lemma pair_eqb_spec p q : reflect (p = q) (Inference.pair_eqb p q).
Proof.
  destruct p as [a b], q as [c d]. unfold Inference.pair_eqb. simpl.
  destruct (String.eqb_spec a c), (String.eqb_spec b d); constructor; congruence.
Qed.

Lemma pair_eqb_refl p : Inference.pair_eqb p p = true.
Proof. destruct (pair_eqb_spec p p); congruence. Qed.

Lemma first_seen_in ps p : In p (Spec.first_seen ps) <-> In p ps.
Proof.
  induction ps as [|q ps IH]; simpl; [tauto|].
  rewrite filter_In, IH.
  destruct (pair_eqb_spec q p); simpl; intuition congruence.
Qed.

Lemma first_seen_nodup ps : NoDup (Spec.first_seen ps).
Proof.
  induction ps as [|q ps IH]; simpl; constructor.
  - rewrite filter_In, pair_eqb_refl. simpl. intuition discriminate.
  - now apply NoDup_filter.
Qed.

Lemma first_seen_snoc ps p :
  Spec.first_seen (ps ++ [p])
  = if existsb (Inference.pair_eqb p) ps then Spec.first_seen ps
    else Spec.first_seen ps ++ [p].
Proof.
  induction ps as [|q ps IH]; simpl; auto.
  rewrite IH. destruct (pair_eqb_spec p q) as [->|Hne]; simpl.
  - destruct (existsb (Inference.pair_eqb q) ps); auto.
    rewrite filter_app. simpl. rewrite pair_eqb_refl. simpl. now rewrite app_nil_r.
  - destruct (existsb (Inference.pair_eqb p) ps); auto.
    rewrite filter_app. simpl.
    destruct (pair_eqb_spec q p); [congruence|]. reflexivity.
Qed.

Lemma occurrences_snoc q ps p :
  Spec.occurrences q (ps ++ [p])
  = Spec.occurrences q ps + (if Inference.pair_eqb q p then 1 else 0).
Proof.
  unfold Spec.occurrences. rewrite filter_app, length_app. simpl.
  destruct (Inference.pair_eqb q p); simpl; lia.
Qed.

Lemma occurrences_absent q ps :
  existsb (Inference.pair_eqb q) ps = false -> Spec.occurrences q ps = 0.
Proof.
  unfold Spec.occurrences. induction ps as [|p ps IH]; simpl; auto.
  destruct (Inference.pair_eqb q p); simpl; [discriminate|auto].
Qed.

Lemma vote_map (c : string * string -> Z) ks p :
  NoDup ks ->
  Inference.vote (map (fun q => (q, c q)) ks) p
  = if existsb (Inference.pair_eqb p) ks
    then map (fun q => (q, c q + (if Inference.pair_eqb q p then 1 else 0))) ks
    else map (fun q => (q, c q)) ks ++ [(p, 1)].
Proof.
  induction 1 as [|k ks Hnotin Hnd IH]; simpl; auto.
  destruct (pair_eqb_spec k p) as [->|Hne].
  - rewrite pair_eqb_refl. simpl. f_equal.
    apply map_ext_in. intros q Hq.
    destruct (pair_eqb_spec q p); [congruence|]. now rewrite Z.add_0_r.
  - destruct (pair_eqb_spec p k); [congruence|]. simpl.
    rewrite IH. rewrite Z.add_0_r.
    destruct (existsb (Inference.pair_eqb p) ks); reflexivity.
Qed.

Lemma vote_tally ps p : Inference.vote (Spec.tally ps) p = Spec.tally (ps ++ [p]).
Proof.
  unfold Spec.tally. rewrite vote_map by apply first_seen_nodup.
  rewrite first_seen_snoc.
  replace (existsb (Inference.pair_eqb p) (Spec.first_seen ps))
    with (existsb (Inference.pair_eqb p) ps).
  2:{ apply eq_true_iff_eq. rewrite !existsb_exists.
      split; intros [x [Hin Hx]]; exists x; split; auto; now apply first_seen_in. }
  destruct (existsb (Inference.pair_eqb p) ps) eqn:E.
  - apply map_ext. intros q. now rewrite occurrences_snoc.
  - rewrite map_app. simpl. f_equal.
    + apply map_ext_in. intros q Hq. rewrite occurrences_snoc.
      destruct (pair_eqb_spec q p) as [->|]; [|now rewrite Z.add_0_r].
      apply (proj1 (first_seen_in ps p)) in Hq.
      assert (existsb (Inference.pair_eqb p) ps = true)
        by (apply existsb_exists; exists p; split; [exact Hq|apply pair_eqb_refl]).
      congruence.
    + rewrite occurrences_snoc, pair_eqb_refl, occurrences_absent by assumption.
      reflexivity.
Qed.

Lemma fold_vote_tally ps : forall ps0,
  fold_left Inference.vote ps (Spec.tally ps0) = Spec.tally (ps0 ++ ps).
Proof.
  induction ps as [|p ps IH]; intros ps0; simpl.
  - now rewrite app_nil_r.
  - rewrite vote_tally, IH, <- app_assoc. reflexivity.
Qed.

Lemma count_edge_votes layers votes e :
  Inference.count_edge layers votes e
  = fold_left Inference.vote (Spec.layer_pairs layers [e]) votes.
Proof.
  unfold Inference.count_edge, Spec.layer_pairs. simpl.
  destruct (Dict.get layers (fst e)) as [sl|]; simpl; auto.
  destruct (Dict.get layers (snd e)) as [tl|]; simpl; auto.
  destruct (negb (String.eqb sl "") && negb (String.eqb tl "") && negb (String.eqb sl tl));
    reflexivity.
Qed.

Lemma layer_pairs_cons layers e es :
  Spec.layer_pairs layers (e :: es)
  = Spec.layer_pairs layers [e] ++ Spec.layer_pairs layers es.
Proof. unfold Spec.layer_pairs. simpl. now rewrite app_nil_r. Qed.

Lemma fold_count_edge layers es : forall votes,
  fold_left (Inference.count_edge layers) es votes
  = fold_left Inference.vote (Spec.layer_pairs layers es) votes.
Proof.
  induction es as [|e es IH]; intros votes; [reflexivity|].
  cbn [fold_left]. now rewrite layer_pairs_cons, fold_left_app, IH, count_edge_votes.
Qed.

(** The votes are the distinct pairs in the order of their first edge,
    each with the number of its edges. *)
Lemma dependency_votes_tally (self : Inference.Engine) :
  Inference.dependency_votes self
  = Spec.tally (Spec.layer_pairs (Inference.inferred_layers self)
                                 (Builder.get_edges (Inference.graph self))).
Proof.
  unfold Inference.dependency_votes. rewrite fold_count_edge.
  apply (fold_vote_tally _ []).
Qed.

End TallyFacts.

(** ** The hierarchy *)

Section HierarchyFacts.

Lemma py_set_in order values x :
  In x (Inference.py_set order values) <-> In x values.
Proof.
  unfold Inference.py_set. rewrite in_app_iff, !filter_In, !nodup_In.
  rewrite mem_true_iff_in, negb_true_iff, mem_false_iff_not_in.
  destruct (in_dec string_dec x order); tauto.
Qed.

Lemma py_set_nodup order values : NoDup (Inference.py_set order values).
Proof.
  unfold Inference.py_set. apply NoDup_app.
  - apply NoDup_filter, NoDup_nodup.
  - apply NoDup_filter, NoDup_nodup.
  - intros x H1 H2. apply filter_In in H1 as [H1 _], H2 as [_ H2].
    apply nodup_In in H1. apply negb_true_iff, mem_false_iff_not_in in H2.
    contradiction.
Qed.

Lemma set_absent {V} (d : Dict.t V) k v :
  ~ In k (Dict.keys d) -> Dict.set d k v = d ++ [(k, v)].
Proof.
  induction d as [|[k' v'] d IH]; simpl; auto.
  intros Hnotin. destruct (String.eqb_spec k' k) as [->|Hne]; [tauto|].
  rewrite IH; auto.
Qed.

Lemma base_hierarchy_fold ls : forall acc,
  NoDup (Dict.keys acc ++ ls) ->
  fold_left (fun h layer => Dict.set h layer (Inference.default_level layer)) ls acc
  = acc ++ map (fun l => (l, Inference.default_level l)) ls.
Proof.
  induction ls as [|l ls IH]; intros acc Hnd; simpl.
  - now rewrite app_nil_r.
  - rewrite set_absent.
    + rewrite IH.
      * now rewrite <- app_assoc.
      * unfold Dict.keys in *. rewrite map_app, <- app_assoc. exact Hnd.
    + intros Hin. apply NoDup_remove_2 in Hnd. apply Hnd.
      apply in_or_app. now left.
Qed.

Lemma base_hierarchy_eq ls :
  NoDup ls ->
  Inference.base_hierarchy ls = map (fun l => (l, Inference.default_level l)) ls.
Proof. intros Hnd. unfold Inference.base_hierarchy. now rewrite base_hierarchy_fold. Qed.

Lemma get_map_default ls l :
  Dict.get (map (fun l => (l, Inference.default_level l)) ls) l
  = if Str.mem l ls then Some (Inference.default_level l) else None.
Proof.
  induction ls as [|k ls IH]; [reflexivity|].
  cbn [map Dict.get]. rewrite mem_cons, (String.eqb_sym l k).
  destruct (String.eqb_spec k l) as [->|]; simpl; auto.
Qed.

(** The base levels: the default of every layer in use, and no other. *)
Lemma base_hierarchy_get order values l :
  Dict.get (Inference.base_hierarchy (Inference.py_set order values)) l
  = if Str.mem l values then Some (Inference.default_level l) else None.
Proof.
  rewrite base_hierarchy_eq by apply py_set_nodup.
  rewrite get_map_default.
  destruct (Str.mem l values) eqn:E.
  - apply mem_true_iff_in in E. apply (py_set_in order) in E.
    apply mem_true_iff_in in E. now rewrite E.
  - apply mem_false_iff_not_in in E.
    rewrite <- (py_set_in order) in E. apply mem_false_iff_not_in in E. now rewrite E.
Qed.

Lemma adjust_raise h a b count :
  In a (Dict.keys h) -> In b (Dict.keys h) ->
  Inference.adjust (Some h) ((a, b), count) = Some (Spec.raise_target h ((a, b), count)).
Proof.
  intros Ha Hb. unfold Inference.adjust, Spec.raise_target, Spec.level.
  destruct (count >? 2); auto.
  apply in_keys_get in Ha as [la Hla], Hb as [lb Hlb]. rewrite Hla, Hlb.
  destruct (Z.geb_spec la lb).
  - now rewrite Z.max_r by lia.
  - rewrite Z.max_l by lia. now rewrite set_same.
Qed.

Lemma raise_target_keys h item k :
  In (snd (fst item)) (Dict.keys h) ->
  In k (Dict.keys (Spec.raise_target h item)) <-> In k (Dict.keys h).
Proof.
  destruct item as [[a b] count]. simpl. intros Hb. unfold Spec.raise_target.
  destruct (count >? 2); [|tauto].
  rewrite in_keys_set. intuition (subst; auto).
Qed.

Lemma fold_adjust_raise votes : forall h,
  (forall a b count, In ((a, b), count) votes ->
                     In a (Dict.keys h) /\ In b (Dict.keys h)) ->
  fold_left Inference.adjust votes (Some h)
  = Some (fold_left Spec.raise_target votes h).
Proof.
  induction votes as [|[[a b] count] votes IH]; intros h Hkeys; [reflexivity|].
  cbn [fold_left].
  destruct (Hkeys a b count (or_introl eq_refl)) as [Ha Hb].
  rewrite adjust_raise by assumption. apply IH.
  intros a' b' c' Hin. rewrite !(raise_target_keys h ((a, b), count)) by exact Hb.
  apply (Hkeys a' b' c'). now right.
Qed.

(** A level is never lowered. *)
Lemma raise_target_monotone h item l :
  Spec.level h l <= Spec.level (Spec.raise_target h item) l.
Proof.
  destruct item as [[a b] count]. unfold Spec.raise_target.
  destruct (count >? 2); [|lia].
  unfold Spec.level at 2. rewrite get_set.
  destruct (String.eqb_spec b l) as [->|]; [lia|].
  unfold Spec.level. lia.
Qed.

Lemma fold_raise_monotone votes : forall h l,
  Spec.level h l <= Spec.level (fold_left Spec.raise_target votes h) l.
Proof.
  induction votes as [|item votes IH]; intros h l; simpl; [lia|].
  etransitivity; [apply (raise_target_monotone h item)|apply IH].
Qed.

(** After a pair counted more than twice, the target is below the
    source. *)
Lemma raise_target_below h a b count :
  count > 2 -> a <> b ->
  Spec.level (Spec.raise_target h ((a, b), count)) b
  >= Spec.level (Spec.raise_target h ((a, b), count)) a + 1
  /\ Spec.level (Spec.raise_target h ((a, b), count)) a = Spec.level h a.
Proof.
  intros Hc Hne. unfold Spec.raise_target.
  destruct (Z.gtb_spec count 2); [|lia].
  set (v := Z.max (Spec.level h b) (Spec.level h a + 1)).
  assert (Hb : Spec.level (Dict.set h b v) b = v)
    by (unfold Spec.level; now rewrite get_set_same).
  assert (Ha : Spec.level (Dict.set h b v) a = Spec.level h a)
    by (unfold Spec.level; now rewrite get_set_other by congruence).
  rewrite Hb, Ha. subst v. split; lia.
Qed.

Lemma layer_pairs_values layers es a b :
  In (a, b) (Spec.layer_pairs layers es) ->
  In a (Dict.values layers) /\ In b (Dict.values layers) /\ a <> b.
Proof.
  unfold Spec.layer_pairs. rewrite in_flat_map. intros [e [_ Hin]].
  destruct (Dict.get layers (fst e)) as [sl|] eqn:Es; [|destruct Hin].
  destruct (Dict.get layers (snd e)) as [tl|] eqn:Et; [|destruct Hin].
  destruct (negb (String.eqb sl "")); simpl in Hin; [|destruct Hin].
  destruct (negb (String.eqb tl "")); simpl in Hin; [|destruct Hin].
  destruct (String.eqb_spec sl tl); simpl in Hin; [destruct Hin|].
  destruct Hin as [[= <- <-]|[]].
  apply get_in in Es, Et. repeat split; auto.
  - change sl with (snd (fst e, sl)). now apply in_map.
  - change tl with (snd (snd e, tl)). now apply in_map.
Qed.

Lemma tally_in ps p count : In (p, count) (Spec.tally ps) -> In p ps.
Proof.
  unfold Spec.tally. rewrite in_map_iff. intros [q [[= -> _] Hq]].
  now apply first_seen_in.
Qed.

End HierarchyFacts.

(** ** Claims on the hierarchy *)

(** C3, as the specification states it, fails on the program.  Three data
    modules import a service module and four service modules import a
    gateway module; the pair (data, service), counted 3, is met first and
    is processed first, before (service, gateway), counted 4.  The program
    leaves [gateway] at level 5; in descending order of count it would be
    at level 3. *)
Lemma pairs_are_not_taken_by_descending_count :
  let self := Inference._assign_modules_to_layers (Inference.init Examples.upward_flow) in
  Inference.dependency_votes self
  = [(("data", "service"), 3); (("service", "gateway"), 4)]
  /\ option_map Inference.layer_hierarchy (Inference._determine_hierarchy [] self)
     = Some [("data", 3); ("service", 4); ("gateway", 5)]
  /\ Spec.hierarchy_by_descending_count [] self
     = Some [("data", 3); ("service", 4); ("gateway", 3)]
  /\ option_map Inference.layer_hierarchy (Inference._determine_hierarchy [] self)
     <> Spec.hierarchy_by_descending_count [] self.
Proof.
  cbv zeta. repeat split; try (vm_compute; reflexivity).
  vm_compute. discriminate.
Qed.

(** C3, amended.  The hierarchy starts from the default levels
    (presentation 0, gateway 1, service 2, data 3, legacy 4, any other
    name 2) of the layers in use and of no other; the distinct pairs of
    differing layers are then processed once each, in the order in which
    each pair is first met among the graph's edges, and every pair counted
    more than twice puts the target at least one level below the source's
    level of the moment; no level is ever lowered. *)
Theorem hierarchy_in_first_seen_order (order : list string) (self : Inference.Engine) :
  let values := Dict.values (Inference.inferred_layers self) in
  let base := Inference.base_hierarchy (Inference.py_set order values) in
  let pairs := Spec.layer_pairs (Inference.inferred_layers self)
                                (Builder.get_edges (Inference.graph self)) in
  (Inference.default_level "presentation" = 0
   /\ Inference.default_level "gateway" = 1
   /\ Inference.default_level "service" = 2
   /\ Inference.default_level "data" = 3
   /\ Inference.default_level "legacy" = 4
   /\ forall l, ~ In l Spec.five_layers -> Inference.default_level l = 2)
  /\ (forall l, Dict.get base l
                = if Str.mem l values then Some (Inference.default_level l) else None)
  /\ Inference.dependency_votes self = Spec.tally pairs
  /\ Inference._determine_hierarchy order self
     = Some (Inference.mkEngine (Inference.graph self) (Inference.inferred_layers self)
                                (fold_left Spec.raise_target (Spec.tally pairs) base))
  /\ (forall h a b count,
         count > 2 -> a <> b ->
         Spec.level (Spec.raise_target h ((a, b), count)) b
         >= Spec.level (Spec.raise_target h ((a, b), count)) a + 1)
  /\ (forall h item l, Spec.level h l <= Spec.level (Spec.raise_target h item) l)
  /\ (forall l, Spec.level base l
                <= Spec.level (fold_left Spec.raise_target (Spec.tally pairs) base) l).
Proof.
  intros values base pairs. split; [|split; [|split; [|split; [|split; [|split]]]]].
  - repeat split; try reflexivity.
    intros l Hl. unfold Inference.default_level, Inference.DEFAULT_HIERARCHY.
    simpl in Hl. cbn [Dict.get].
    repeat match goal with
           | |- context [String.eqb ?x l] =>
               destruct (String.eqb_spec x l); [exfalso; intuition congruence|]
           end.
    reflexivity.
  - intros l. apply base_hierarchy_get.
  - apply dependency_votes_tally.
  - unfold Inference._determine_hierarchy.
    rewrite dependency_votes_tally. fold values base pairs.
    rewrite fold_adjust_raise; [reflexivity|].
    intros a b count Hin. apply tally_in in Hin.
    apply layer_pairs_values in Hin as (Ha & Hb & _).
    assert (Hkey : forall l, In l values -> In l (Dict.keys base)).
    { intros l Hl. apply (get_some_in_keys base l (Inference.default_level l)).
      subst base. rewrite base_hierarchy_get.
      apply mem_true_iff_in in Hl. fold values. now rewrite Hl. }
    split; apply Hkey; assumption.
  - intros h a b count Hc Hne. now apply raise_target_below.
  - apply raise_target_monotone.
  - intros l. apply fold_raise_monotone.
Qed.

(** ** Cycles *)

Section CycleFacts.

Lemma has_edge_iff G u v : Spec.has_edge G u v = true <-> In (u, v) (Nx.edges G).
Proof.
  unfold Spec.has_edge. rewrite existsb_exists. split.
  - intros [p [Hin Hp]]. destruct (pair_eqb_spec (u, v) p); [now subst|discriminate].
  - intros Hin. exists (u, v). split; [exact Hin|apply pair_eqb_refl].
Qed.

Lemma has_edge_ring G u v :
  (forall x y, In (x, y) (Nx.edges G) <-> In (x, y) Examples.ring) ->
  Spec.has_edge G u v = true ->
  (u, v) = ("a", "b") \/ (u, v) = ("b", "c") \/ (u, v) = ("c", "a").
Proof.
  intros HE Hedge. apply has_edge_iff, HE in Hedge.
  unfold Examples.ring in Hedge. simpl in Hedge.
  destruct Hedge as [H|[H|[H|[]]]]; auto.
Qed.

Ltac edge_cases G HE H :=
  apply (has_edge_ring G _ _ HE) in H;
  destruct H as [H|[H|H]]; inversion H; subst; clear H; try congruence.

(** The three-module ring has one elementary cycle, in three rotations. *)
Lemma ring_cycles G c :
  (forall x y, In (x, y) (Nx.edges G) <-> In (x, y) Examples.ring) ->
  Spec.elementary_cycle G c = true ->
  In c [["a"; "b"; "c"]; ["b"; "c"; "a"]; ["c"; "a"; "b"]].
Proof.
  intros HE Hc.
  destruct c as [|x1 [|x2 [|x3 [|x4 rest]]]]; [discriminate| | | |].
  - unfold Spec.elementary_cycle in Hc. cbn [Spec.linked last] in Hc.
    apply andb_prop in Hc as [_ H]. edge_cases G HE H.
  - unfold Spec.elementary_cycle in Hc. cbn [Spec.linked last] in Hc.
    apply andb_prop in Hc as [Hc H1]. apply andb_prop in Hc as [_ Hc].
    apply andb_prop in Hc as [H2 _].
    edge_cases G HE H1; edge_cases G HE H2.
  - unfold Spec.elementary_cycle in Hc. cbn [Spec.linked last] in Hc.
    apply andb_prop in Hc as [Hc H1]. apply andb_prop in Hc as [_ Hc].
    apply andb_prop in Hc as [H2 Hc]. apply andb_prop in Hc as [H3 _].
    edge_cases G HE H1; edge_cases G HE H2; edge_cases G HE H3; simpl; auto.
  - exfalso. unfold Spec.elementary_cycle in Hc.
    apply andb_prop in Hc as [Hc _]. apply andb_prop in Hc as [Hd Hc].
    cbn [Spec.linked] in Hc.
    apply andb_prop in Hc as [H1 Hc]. apply andb_prop in Hc as [H2 Hc].
    apply andb_prop in Hc as [H3 _].
    edge_cases G HE H1; edge_cases G HE H2; edge_cases G HE H3;
      cbn [Spec.distinct] in Hd; rewrite !mem_cons in Hd; simpl in Hd; discriminate.
Qed.

Lemma filter_all {A} (f : A -> bool) (l : list A) :
  (forall x, In x l -> f x = true) -> filter f l = l.
Proof.
  induction l as [|x l IH]; simpl; auto.
  intros H. rewrite (H x) by auto. f_equal. auto.
Qed.

Lemma ring_is_elementary G :
  (forall x y, In (x, y) (Nx.edges G) <-> In (x, y) Examples.ring) ->
  Spec.elementary_cycle G ["a"; "b"; "c"] = true.
Proof.
  intros HE.
  assert (Hab : Spec.has_edge G "a" "b" = true)
    by (apply has_edge_iff, HE; simpl; auto).
  assert (Hbc : Spec.has_edge G "b" "c" = true)
    by (apply has_edge_iff, HE; simpl; auto).
  assert (Hca : Spec.has_edge G "c" "a" = true)
    by (apply has_edge_iff, HE; simpl; auto).
  unfold Spec.elementary_cycle. cbn [Spec.linked last].
  rewrite Hab, Hbc, Hca. reflexivity.
Qed.

Lemma triangle_edges (x y : string) :
  In (x, y) (Nx.edges (Builder.graph Examples.triangle)) <-> In (x, y) Examples.ring.
Proof. reflexivity. Qed.

Lemma cycles_from_b_enumerates :
  Spec.enumerates_cycles (Builder.graph Examples.triangle)
    (Examples.cycles_from_b (Builder.graph Examples.triangle)).
Proof.
  split.
  - intros c [<-|[]]. reflexivity.
  - intros c Hc. apply (ring_cycles _ c triangle_edges) in Hc.
    destruct Hc as [<-|[<-|[<-|[]]]]; reflexivity.
Qed.

End CycleFacts.

(** C2, as the specification states it, fails on the program.
    [find_cycles] hands over the list that the library's enumeration
    yields: for the ring a -> b -> c -> a an enumeration that lists every
    elementary cycle once, and starts its search at [b], makes it return
    [[b, c, a]], which is neither rotated to its smallest module id nor
    the list [[a, b, c]]. *)
Lemma find_cycles_is_not_canonical :
  Spec.enumerates_cycles (Builder.graph Examples.triangle)
    (Examples.cycles_from_b (Builder.graph Examples.triangle))
  /\ Builder.find_cycles Examples.cycles_from_b Examples.triangle = [["b"; "c"; "a"]]
  /\ Builder.find_cycles Examples.cycles_from_b Examples.triangle <> [["a"; "b"; "c"]]
  /\ forallb Spec.canonical (Builder.find_cycles Examples.cycles_from_b Examples.triangle)
     = false.
Proof.
  split; [exact cycles_from_b_enumerates|].
  repeat split; try reflexivity. discriminate.
Qed.

(** C2, amended.  [find_cycles] returns the cycles as the library's
    enumeration of elementary cycles yields them, without rotating,
    deduplicating or sorting them, and the empty list when the enumeration
    raises; when that enumeration lists every elementary cycle of the
    graph once, in some rotation, so does the result; in particular, for
    three modules a, b, c with edges a -> b, b -> c, c -> a it is one
    cycle, a rotation of [a, b, c]. *)
Theorem find_cycles_returns_the_enumeration
    (simple_cycles : Nx.DiGraph -> Builder.Outcome (list (list string)))
    (g : Builder.DependencyGraph) :
  let cycles := Builder.find_cycles simple_cycles g in
  (forall cs, simple_cycles (Builder.graph g) = Builder.Returned cs -> cycles = cs)
  /\ (simple_cycles (Builder.graph g) = Builder.Raised -> cycles = [])
  /\ (Spec.enumerates_cycles (Builder.graph g) (simple_cycles (Builder.graph g)) ->
      (forall c, In c cycles -> Spec.elementary_cycle (Builder.graph g) c = true)
      /\ (forall c, Spec.elementary_cycle (Builder.graph g) c = true ->
                    List.length (filter (Spec.same_cycle c) cycles) = 1%nat)
      /\ ((forall u v, In (u, v) (Builder.get_edges g) <-> In (u, v) Examples.ring) ->
          exists c, cycles = [c]
                    /\ In c [["a"; "b"; "c"]; ["b"; "c"; "a"]; ["c"; "a"; "b"]])).
Proof.
  cbv zeta. unfold Builder.find_cycles, Spec.enumerates_cycles.
  split; [|split].
  - intros cs ->. reflexivity.
  - intros ->. reflexivity.
  - destruct (simple_cycles (Builder.graph g)) as [cs|]; [|intros []].
    intros [Hall Honce].
    split; [exact Hall|]. split; [exact Honce|].
    intros HE. unfold Builder.get_edges in HE.
    assert (Hrot : forall c, In c cs ->
                             In c [["a"; "b"; "c"]; ["b"; "c"; "a"]; ["c"; "a"; "b"]]).
    { intros c Hc. apply (ring_cycles (Builder.graph g)); auto. }
    pose proof (Honce ["a"; "b"; "c"] (ring_is_elementary _ HE)) as Hlen.
    rewrite filter_all in Hlen.
    + destruct cs as [|c [|c' cs]]; try discriminate.
      exists c. split; auto. apply Hrot. now left.
    + intros c Hc. apply Hrot in Hc.
      destruct Hc as [<-|[<-|[<-|[]]]]; reflexivity.
Qed.

(** The amended C2 at the ring of three modules. *)
Lemma find_cycles_returns_the_enumeration_witness :
  exists c, Builder.find_cycles Examples.cycles_from_b Examples.triangle = [c]
            /\ In c [["a"; "b"; "c"]; ["b"; "c"; "a"]; ["c"; "a"; "b"]].
Proof.
  exact (proj2 (proj2 (proj2 (proj2 (find_cycles_returns_the_enumeration
                                       Examples.cycles_from_b Examples.triangle))
                               cycles_from_b_enumerates))
               triangle_edges).
Defined.

(** ** The extractor *)

Section AnalyzerFacts.

Import Analyzer.

Lemma for_each_total {A} (body : A -> M unit) (xs : list A) :
  (forall x s, exists s', body x s = (inr tt, s')) ->
  forall s, for_each xs body s
            = (inr tt, fold_left (fun s x => snd (body x s)) xs s).
Proof.
  intros Hbody. induction xs as [|x xs IH]; intros s; simpl; [reflexivity|].
  unfold bind. destruct (Hbody x s) as [s' Hs']. rewrite Hs'. simpl. apply IH.
Qed.

Lemma import_edges_total module_name imports s :
  exists s', import_edges module_name imports s = (inr tt, s').
Proof.
  unfold import_edges. rewrite for_each_total; eauto.
  intros x s0. unfold append_dependency. eauto.
Qed.

Lemma analyze_python_file_total f s :
  exists s', _analyze_python_file f s = (inr tt, s').
Proof.
  unfold _analyze_python_file, try_except, bind, read_and_parse, get_self,
    store_module, print, raise, ret.
  destruct (outcome f) as [msg|found]; simpl; eauto.
  match goal with |- context [import_edges ?n ?i ?s0] =>
    destruct (import_edges_total n i s0) as [s' Hs'] end.
  rewrite Hs'. eauto.
Qed.

Lemma analyze_with_patterns_total f extension s :
  exists s', _analyze_with_patterns f extension s = (inr tt, s').
Proof.
  unfold _analyze_with_patterns, try_except, bind, read_and_parse, get_self,
    store_module, print, raise, ret.
  destruct (outcome f) as [msg|found]; simpl; eauto.
  match goal with |- context [import_edges ?n ?i ?s0] =>
    destruct (import_edges_total n i s0) as [s' Hs'] end.
  rewrite Hs'. eauto.
Qed.

Lemma analyze_generic_file_total f s :
  exists s', _analyze_generic_file f s = (inr tt, s').
Proof.
  unfold _analyze_generic_file, try_except, bind, get_self, store_module. simpl. eauto.
Qed.

Lemma analyze_file_total f s : exists s', _analyze_file f s = (inr tt, s').
Proof.
  unfold _analyze_file, try_except.
  destruct (String.eqb (Str.lower (suffix (parts f))) ".py").
  - destruct (analyze_python_file_total f s) as [s' ->]. eauto.
  - destruct (Str.mem (Str.lower (suffix (parts f))) IMPORT_PATTERNS_keys).
    + destruct (analyze_with_patterns_total f (Str.lower (suffix (parts f))) s) as [s' ->].
      eauto.
    + destruct (analyze_generic_file_total f s) as [s' ->]. eauto.
Qed.

Lemma analyze_file_raises f s msg :
  is_read f = true -> outcome f = Raises msg ->
  exists line,
    _analyze_file f s = (inr tt, printed s line)
    /\ (line = ("Error analyzing " ++ full_str s (parts f) ++ ": " ++ msg)%string
        \/ line = ("Warning: Failed to analyze " ++ Str.lower (suffix (parts f))
                   ++ " file " ++ full_str s (parts f) ++ ": " ++ msg)%string).
Proof.
  unfold is_read. intros Hread Hout.
  unfold _analyze_file, try_except.
  destruct (String.eqb (Str.lower (suffix (parts f))) ".py").
  - unfold _analyze_python_file, try_except, bind, read_and_parse, raise, get_self, print.
    rewrite Hout. simpl. eexists. split; [reflexivity|]. now left.
  - apply orb_true_iff in Hread as [Hread|Hread]; [discriminate|]. rewrite Hread.
    unfold _analyze_with_patterns, try_except, bind, read_and_parse, raise, get_self, print.
    rewrite Hout. simpl. eexists. split; [reflexivity|]. now right.
Qed.

End AnalyzerFacts.

(** ** Claims on the extractor *)

(** C7, as the specification states it, fails on the program: what
    [analyze] returns for a repository whose only file cannot be parsed is
    what it returns for an empty repository, the pair of no modules and no
    dependencies; the failure is a line printed, and no list of warnings
    is returned. *)
Lemma analyze_returns_no_warnings :
  fst (Analyzer.analyze Examples.broken_repo (Analyzer.init "/repo" false))
  = inr ([], [])
  /\ fst (Analyzer.analyze [] (Analyzer.init "/repo" false)) = inr ([], [])
  /\ In "Error analyzing /repo/broken.py: invalid syntax (broken.py, line 1)"
        (Analyzer.stdout
           (snd (Analyzer.analyze Examples.broken_repo (Analyzer.init "/repo" false))))
  /\ ~ In "Error analyzing /repo/broken.py: invalid syntax (broken.py, line 1)"
          (Analyzer.stdout (snd (Analyzer.analyze [] (Analyzer.init "/repo" false)))).
Proof.
  repeat split; try reflexivity.
  - vm_compute. tauto.
  - vm_compute. intuition discriminate.
Qed.

(** C7, amended.  An exception raised while a file is read or parsed is
    caught and reported as one printed line that carries the file's path
    and the message; the modules and the dependencies are left as they
    were, so the file is in neither; no file makes the extractor raise,
    the scan goes on to the files that follow, and [analyze] returns the
    modules and the dependencies gathered, and nothing else. *)
Theorem unparsable_file_is_printed_and_skipped :
  (forall f s msg,
      Analyzer.is_read f = true -> Analyzer.outcome f = Analyzer.Raises msg ->
      exists line,
        Analyzer._analyze_file f s = (inr tt, Analyzer.printed s line)
        /\ (line = ("Error analyzing " ++ Analyzer.full_str s (Analyzer.parts f)
                    ++ ": " ++ msg)%string
            \/ line = ("Warning: Failed to analyze "
                       ++ Str.lower (Analyzer.suffix (Analyzer.parts f))
                       ++ " file " ++ Analyzer.full_str s (Analyzer.parts f)
                       ++ ": " ++ msg)%string))
  /\ (forall f s, exists s', Analyzer._analyze_file f s = (inr tt, s'))
  /\ (forall files s,
         Analyzer.for_each files Analyzer._analyze_file s
         = (inr tt, fold_left (fun s f => snd (Analyzer._analyze_file f s)) files s))
  /\ (forall root s,
         exists s', Analyzer.analyze root s
                    = (inr (Analyzer.modules s', Analyzer.dependencies s'), s')).
Proof.
  split; [exact analyze_file_raises|].
  split; [exact analyze_file_total|].
  split; [intros; apply for_each_total; exact analyze_file_total|].
  intros root s.
  unfold Analyzer.analyze, Analyzer.bind, Analyzer.get_self, Analyzer.print, Analyzer.ret.
  cbn [fst snd]. rewrite for_each_total by exact analyze_file_total.
  match goal with |- exists s', (_, ?final) = _ => exists final end.
  reflexivity.
Qed.

(** The amended C7 at a Python file that cannot be parsed. *)
Lemma unparsable_file_is_printed_and_skipped_witness :
  exists line,
    Analyzer._analyze_file
      (Analyzer.mkSourceFile ["broken.py"]
                             (Analyzer.Raises "invalid syntax (broken.py, line 1)"))
      (Analyzer.init "/repo" false)
    = (inr tt, Analyzer.printed (Analyzer.init "/repo" false) line)
    /\ (line = "Error analyzing /repo/broken.py: invalid syntax (broken.py, line 1)"
        \/ line = "Warning: Failed to analyze .py file /repo/broken.py: invalid syntax (broken.py, line 1)").
Proof.
  apply (proj1 unparsable_file_is_printed_and_skipped
           (Analyzer.mkSourceFile ["broken.py"]
                                  (Analyzer.Raises "invalid syntax (broken.py, line 1)"))
           (Analyzer.init "/repo" false)
           "invalid syntax (broken.py, line 1)"); reflexivity.
Defined.
